(** * Provider resolution, request adaptation and local-server probing

    A shallow embedding of the provider layer of the OpenAI-compatible
    content generator:

    - [determineProvider]       (openaiContentGenerator/index.ts)
    - [OllamaProvider]          (openaiContentGenerator/provider/ollama.ts)
    - [VllmProvider]            (the vLLM provider class)
    - [checkLocalServerAvailability], [autoDetectLocalServer]
                                (the offline detection utility)

    JavaScript strings are modelled as Rocq strings of 8-bit characters.
    [toLowerCase] is the ASCII case mapping (A-Z to a-z); characters
    outside the ASCII letters are left as they are. *)

From Stdlib Require Import Ascii String ZArith Bool List Lia.
From stdpp Require Import base option strings gmap.

Local Open Scope string_scope.

(** ** JavaScript string primitives *)

Module JsString.

(** One character of [String.prototype.toLowerCase]. *)
Definition lowerChar (c : ascii) : ascii :=
  let n := nat_of_ascii c in
  if (65 <=? n)%nat && (n <=? 90)%nat then ascii_of_nat (n + 32) else c.

(** [s.toLowerCase()] *)
Fixpoint toLowerCase (s : string) : string :=
  match s with
  | EmptyString => EmptyString
  | String c s' => String (lowerChar c) (toLowerCase s')
  end.

(** [s.startsWith(p)] *)
Definition startsWith (s p : string) : bool := String.prefix p s.

(** [s.includes(t)]: [t] starts at some position of [s]. *)
Fixpoint includes (s t : string) : bool :=
  startsWith s t ||
  match s with
  | EmptyString => false
  | String _ s' => includes s' t
  end.

(** [s.endsWith(p)] *)
Definition endsWith (s p : string) : bool :=
  (String.length p <=? String.length s)%nat &&
  String.eqb
    (String.substring (String.length s - String.length p) (String.length p) s)
    p.

(** The first [length s - n] characters of [s]. *)
Definition dropLast (n : nat) (s : string) : string :=
  String.substring 0 (String.length s - n) s.

(** [v || d] for an optional string: [undefined] and the empty string
    are falsy. *)
Definition orElse (v : option string) (d : string) : string :=
  match v with
  | Some s => if String.eqb s "" then d else s
  | None => d
  end.

End JsString.

Import JsString.

(** ** Exceptions *)

(** A thrown JavaScript value: an [Error] object (with its name and
    message) or any other value, kept as what [String(v)] yields. *)
Inductive JsThrown : Type :=
| ErrorObject (name message : string)
| ThrownValue (str : string).

Definition TypeError (message : string) : JsThrown :=
  ErrorObject "TypeError" message.

(** The outcome of evaluating JavaScript code that may throw. *)
Inductive Exc (A : Type) : Type :=
| Ok (a : A)
| Throw (e : JsThrown).
Arguments Ok {A} a.
Arguments Throw {A} e.

(** ** Values *)

(** Parsed JSON. A number is the bit pattern of its IEEE-754 binary64
    value; an object maps its own property names to values. *)
#[warnings="-register-all"] Inductive Json : Type :=
| JNull
| JBool (b : bool)
| JNum (bits : Z)
| JStr (s : string)
| JArr (l : list Json)
| JObj (o : gmap string Json).

(** A run-time value held by a property of a request object: JSON data,
    [undefined], or the value found under [name] on [Object.prototype]
    (the [Object] function for "constructor", [Object.prototype] itself
    for "__proto__", a built-in method otherwise). *)
Inductive Value : Type :=
| VUndefined
| VJson (j : Json)
| VObjectPrototypeMember (name : string).

Abbreviation VStr s := (VJson (JStr s)).

(** A plain object, as the map of its own properties. *)
Abbreviation JsObject := (gmap string Value).

Module Js.

(** ToBoolean on parsed JSON: [null], [false], [0], [-0], [NaN] and
    the empty string are falsy. *)
Definition truthyJson (j : Json) : bool :=
  match j with
  | JNull => false
  | JBool b => b
  | JNum bits =>
      let magnitude := Z.land bits 0x7FFFFFFFFFFFFFFF in
      negb (magnitude =? 0)%Z && (magnitude <=? 0x7FF0000000000000)%Z
  | JStr s => negb (String.eqb s "")
  | JArr _ | JObj _ => true
  end.

Definition truthy (v : Value) : bool :=
  match v with
  | VUndefined => false
  | VJson j => truthyJson j
  | VObjectPrototypeMember _ => true
  end.

(** [a || b] *)
Definition or (a b : Value) : Value := if truthy a then a else b.

(** The property names defined on [Object.prototype]. *)
Definition objectPrototypeKeys : list string :=
  [ "constructor"; "__defineGetter__"; "__defineSetter__"; "hasOwnProperty";
    "__lookupGetter__"; "__lookupSetter__"; "isPrototypeOf";
    "propertyIsEnumerable"; "toString"; "valueOf"; "__proto__";
    "toLocaleString" ].

(** Own string-valued properties of an object literal, in source order. *)
Fixpoint ownProperty (props : list (string * string)) (key : string)
  : option string :=
  match props with
  | [] => None
  | (k, v) :: rest => if String.eqb k key then Some v else ownProperty rest key
  end.

(** [literal[key]] for an object literal with the string-valued
    properties [props]: an own property, else what the prototype
    chain ([Object.prototype]) provides, else [undefined]. *)
Definition getIndex (props : list (string * string)) (key : string) : Value :=
  match ownProperty props key with
  | Some v => VStr v
  | None =>
      if existsb (String.eqb key) objectPrototypeKeys
      then VObjectPrototypeMember key
      else VUndefined
  end.

(** [{ ...source }] spread into an object under construction: the own
    properties of [source] are defined on [target], replacing
    properties of the same name. *)
Definition spread (target source : JsObject) : JsObject := source ∪ target.

(** [obj.key] for a plain object and a key that [Object.prototype]
    does not define. *)
Definition get (obj : JsObject) (key : string) : Value :=
  default VUndefined (obj !! key).

(** [v.key] on parsed JSON, for a key that no built-in prototype
    defines: reading a property of [null] throws, an object yields its
    own property, anything else yields [undefined] ([None]). *)
Definition getMember (v : Json) (key : string) : Exc (option Json) :=
  match v with
  | JNull =>
      Throw (TypeError ("Cannot read properties of null (reading '"
                          ++ key ++ "')"))
  | JObj o => Ok (o !! key)
  | _ => Ok None
  end.

(** [arr.map((m) => m.key)] on the elements of a JSON array. *)
Fixpoint mapMember (l : list Json) (key : string)
  : Exc (list (option Json)) :=
  match l with
  | [] => Ok []
  | m :: rest =>
      match getMember m key with
      | Throw e => Throw e
      | Ok x =>
          match mapMember rest key with
          | Throw e => Throw e
          | Ok xs => Ok (x :: xs)
          end
      end
  end.

(** [x?.map((m) => m.key)]: [undefined] when [x] is [undefined] or
    [null]; a [TypeError] when [x] has no [map] method. *)
Definition optionalMap (x : option Json) (key : string)
  : Exc (option (list (option Json))) :=
  match x with
  | None | Some JNull => Ok None
  | Some (JArr l) =>
      match mapMember l key with
      | Throw e => Throw e
      | Ok xs => Ok (Some xs)
      end
  | Some _ => Throw (TypeError "x.map is not a function")
  end.

End Js.

(** ** Configuration and providers *)

(** The connection configuration; every field is optional. *)
Record ContentGeneratorConfig : Type := {
  baseUrl : option string;
  apiKey : option string;
  model : option string;
  timeout : option Z;
  maxRetries : option Z
}.

(** The CLI configuration object, as far as the provider layer reads it.
    The result of the getter is optional: nothing in the provider layer
    ensures that it is defined. *)
Record Config : Type := {
  getContentGeneratorConfig : option ContentGeneratorConfig;
  getCliVersion : option string
}.

Inductive ProviderVariant : Type :=
| Ollama | Vllm | DashScope | DeepSeek | OpenRouter | ModelScope | Default.

(** A provider instance: the class it was built from and the two
    constructor arguments every provider class stores. *)
Record Provider : Type := {
  variant : ProviderVariant;
  contentGeneratorConfig : option ContentGeneratorConfig;
  cliConfig : Config
}.

Module OllamaProvider.

Definition DEFAULT_OLLAMA_BASE_URL : string := "http://localhost:11434/v1".
Definition DEFAULT_OLLAMA_MODEL : string := "qwen3-coder:14b".

(** [static isOllamaProvider(contentGeneratorConfig)] *)
Definition isOllamaProvider (contentGeneratorConfig : ContentGeneratorConfig)
  : bool :=
  let baseUrl :=
    orElse (toLowerCase <$> baseUrl contentGeneratorConfig) "" in
  if includes baseUrl "localhost:11434" || includes baseUrl "127.0.0.1:11434"
  then true
  else
    let model := orElse (model contentGeneratorConfig) "" in
    if includes model ":" && startsWith model "qwen" then true else false.

(** The object literal [modelMap] of [mapModelName]. *)
Definition modelMap : list (string * string) :=
  [ ("coder-model", DEFAULT_OLLAMA_MODEL);
    ("qwen3-coder", "qwen3-coder:14b");
    ("qwen3-coder-7b", "qwen3-coder:7b");
    ("qwen3-coder-14b", "qwen3-coder:14b");
    ("qwen3-coder-32b", "qwen3-coder:32b");
    ("qwen3-coder-plus", "qwen3-coder:32b") ].

(** [private mapModelName(model)]. The signature declares a string;
    types are erased at run time, so the other values are covered as
    JavaScript evaluates them: an array has its own [includes] (and is
    returned as it is when ":" is an element) but no [toLowerCase];
    [undefined] and [null] have no properties; every other value has
    no [includes] method. *)
Definition mapModelName (model : Value) : Exc Value :=
  match model with
  | VJson (JStr s) =>
      if includes s ":" then Ok model
      else Ok (Js.or (Js.getIndex modelMap (toLowerCase s))
                     (VStr DEFAULT_OLLAMA_MODEL))
  | VJson (JArr l) =>
      if existsb (fun x => match x with
                           | JStr e => String.eqb e ":"
                           | _ => false
                           end) l
      then Ok model
      else Throw (TypeError "model.toLowerCase is not a function")
  | VUndefined | VJson JNull =>
      Throw (TypeError "Cannot read properties of undefined (reading 'includes')")
  | _ => Throw (TypeError "model.includes is not a function")
  end.

(** [buildRequest(request, _userPromptId)]:
    [{ ...request, model: this.mapModelName(request.model), keep_alive: '5m' }] *)
Definition buildRequest (request : JsObject) (_userPromptId : string)
  : Exc JsObject :=
  match mapModelName (Js.get request "model") with
  | Throw e => Throw e
  | Ok mapped =>
      Ok (<["keep_alive" := VStr "5m"]>
            (<["model" := mapped]> (Js.spread ∅ request)))
  end.

End OllamaProvider.

Module VllmProvider.

Definition DEFAULT_VLLM_BASE_URL : string := "http://localhost:8000/v1".

(** [static isVllmProvider(contentGeneratorConfig)] *)
Definition isVllmProvider (contentGeneratorConfig : ContentGeneratorConfig)
  : bool :=
  let baseUrl :=
    orElse (toLowerCase <$> baseUrl contentGeneratorConfig) "" in
  if includes baseUrl "localhost:8000" || includes baseUrl "127.0.0.1:8000"
  then true
  else false.

(** [buildRequest(request, _userPromptId)]: [{ ...request }] *)
Definition buildRequest (request : JsObject) (_userPromptId : string)
  : JsObject :=
  Js.spread ∅ request.

End VllmProvider.

(** The detection predicates of the four cloud provider classes. Their
    modules are not part of the sources at hand, so the resolver is
    parameterised by them; like the two local predicates they are pure
    boolean functions of the configuration. *)
Class CloudPredicates : Type := {
  isDashScopeProvider : ContentGeneratorConfig -> bool;
  isDeepSeekProvider : ContentGeneratorConfig -> bool;
  isOpenRouterProvider : ContentGeneratorConfig -> bool;
  isModelScopeProvider : ContentGeneratorConfig -> bool
}.

(** [new XProvider(contentGeneratorConfig, cliConfig)] *)
Definition newProvider (v : ProviderVariant)
    (contentGeneratorConfig : option ContentGeneratorConfig)
    (cliConfig : Config) : Provider :=
  {| variant := v;
     contentGeneratorConfig := contentGeneratorConfig;
     cliConfig := cliConfig |}.

(** [determineProvider(contentGeneratorConfig, cliConfig)].
    [config] is [contentGeneratorConfig || cliConfig.getContentGeneratorConfig()];
    when both are [undefined] the first predicate reads a property of
    [undefined] and a [TypeError] is thrown. *)
Definition determineProvider `{CloudPredicates}
    (contentGeneratorConfig : option ContentGeneratorConfig)
    (cliConfig : Config) : Exc Provider :=
  let config :=
    match contentGeneratorConfig with
    | Some c => Some c
    | None => getContentGeneratorConfig cliConfig
    end in
  match config with
  | None =>
      Throw (TypeError "Cannot read properties of undefined (reading 'baseUrl')")
  | Some config =>
      if OllamaProvider.isOllamaProvider config then
        Ok (newProvider Ollama contentGeneratorConfig cliConfig)
      else if VllmProvider.isVllmProvider config then
        Ok (newProvider Vllm contentGeneratorConfig cliConfig)
      else if isDashScopeProvider config then
        Ok (newProvider DashScope contentGeneratorConfig cliConfig)
      else if isDeepSeekProvider config then
        Ok (newProvider DeepSeek contentGeneratorConfig cliConfig)
      else if isOpenRouterProvider config then
        Ok (newProvider OpenRouter contentGeneratorConfig cliConfig)
      else if isModelScopeProvider config then
        Ok (newProvider ModelScope contentGeneratorConfig cliConfig)
      else
        Ok (newProvider Default contentGeneratorConfig cliConfig)
  end.

(** ** Detecting a local model server *)

Module OfflineDetection.

Inductive ServerType : Type := ollama | vllm | custom.

(** The [models] property of a result: the array produced by
    [.map(...)] (an entry is [None] where the mapped property is
    [undefined]), or the payload's [models] value handed on as it
    came. *)
Inductive Models : Type :=
| ModelNames (names : list (option Json))
| ModelsRaw (j : Json).

Record ServerAvailability : Type := {
  isAvailable : bool;
  serverType : option ServerType;
  baseUrl : option string;
  models : option Models;
  error : option string
}.

(** What the code looks at in a settled [fetch] response: the [ok]
    flag and the outcome of [await response.json()]. *)
Record Response : Type := {
  ok : bool;
  json : Exc Json
}.

(** The network. [script n url timeout] is the outcome of the [n]-th
    [fetch] issued (counting from 0) when it asks for [url] with
    [AbortSignal.timeout(timeout)]: a response, or a rejection (no
    connection, time-out, malformed URL, ...). [calls] records the
    requests issued so far, oldest first. *)
Record World : Type := {
  script : nat -> string -> Z -> Exc Response;
  calls : list (string * Z)
}.

(** The world after the requests [issued] have been made. *)
Definition logged (w : World) (issued : list (string * Z)) : World :=
  {| script := script w; calls := calls w ++ issued |}.

(** Computations that talk to the network and may throw. *)
Definition M (A : Type) : Type := World -> Exc A * World.

Definition ret {A} (a : A) : M A := fun w => (Ok a, w).

Definition bind {A B} (m : M A) (k : A -> M B) : M B :=
  fun w =>
    match m w with
    | (Ok a, w') => k a w'
    | (Throw e, w') => (Throw e, w')
    end.

Definition lift {A} (r : Exc A) : M A := fun w => (r, w).

(** [try { body } catch (e) { handler }] *)
Definition tryCatch {A} (body : M A) (handler : JsThrown -> M A) : M A :=
  fun w =>
    match body w with
    | (Ok a, w') => (Ok a, w')
    | (Throw e, w') => handler e w'
    end.

Notation "'let*' x ':=' m 'in' k" := (bind m (fun x => k))
  (at level 10, x name, m at level 100, k at level 200).

(** [AbortSignal.timeout(delay)] accepts a delay of 0 to 4294967295
    milliseconds and throws a [RangeError] for any other. Delays are
    integers in this model. *)
Definition validTimeout (timeout : Z) : bool :=
  (0 <=? timeout)%Z && (timeout <=? 4294967295)%Z.

Definition timeoutRangeError : JsThrown :=
  ErrorObject "RangeError"
    "The value of 'delay' is out of range. It must be >= 0 && <= 4294967295.".

(** The outcome of evaluating
    [fetch(url, { method: 'GET', signal: AbortSignal.timeout(timeout) })]
    as the [n]-th request: the signal is built first, so a time-out
    that [AbortSignal.timeout] rejects throws before any request is
    made. *)
Definition fetchOutcome (w : World) (n : nat) (url : string) (timeout : Z)
  : Exc Response :=
  if validTimeout timeout then script w n url timeout
  else Throw timeoutRangeError.

(** The world after [requests] were asked for with the time-out
    [timeout]: they are issued only when the time-out is accepted. *)
Definition requested (w : World) (timeout : Z) (requests : list (string * Z))
  : World :=
  if validTimeout timeout then logged w requests else w.

(** [await fetch(url, { method: 'GET', signal: AbortSignal.timeout(timeout) })] *)
Definition fetch (url : string) (timeout : Z) : M Response :=
  fun w =>
    (fetchOutcome w (length (calls w)) url timeout,
     requested w timeout [(url, timeout)]).

(** [s.replace(/\/v1\/?$/, replacement)]: a trailing "/v1" or "/v1/" is
    replaced, any other string is returned as it is. *)
Definition replaceTrailingV1 (s replacement : string) : string :=
  if endsWith s "/v1/" then dropLast 4 s ++ replacement
  else if endsWith s "/v1" then dropLast 3 s ++ replacement
  else s.

(** [const ollamaTagsUrl = baseUrl.replace(/\/v1\/?$/, '/api/tags')] *)
Definition ollamaTagsUrl (baseUrl : string) : string :=
  replaceTrailingV1 baseUrl "/api/tags".

(** [const modelsUrl = baseUrl.endsWith('/v1') ? `${baseUrl}/models`
                                               : `${baseUrl}/v1/models`] *)
Definition modelsUrl (baseUrl : string) : string :=
  if endsWith baseUrl "/v1" then baseUrl ++ "/models"
  else baseUrl ++ "/v1/models".

(** [error instanceof Error ? error.message : String(error)] *)
Definition errorText (error : JsThrown) : string :=
  match error with
  | ErrorObject _ message => message
  | ThrownValue str => str
  end.

(** [{ isAvailable: true, serverType, baseUrl, models }] *)
Definition available (type : ServerType) (baseUrl : string) (models : Models)
  : ServerAvailability :=
  {| isAvailable := true;
     serverType := Some type;
     baseUrl := Some baseUrl;
     models := Some models;
     error := None |}.

(** [{ isAvailable: false, error }] *)
Definition unavailable (error : string) : ServerAvailability :=
  {| isAvailable := false;
     serverType := None;
     baseUrl := None;
     models := None;
     error := Some error |}.

(** [data.models?.map((m) => m.name) || []] *)
Definition ollamaModels (data : Json) : Exc Models :=
  match Js.getMember data "models" with
  | Throw e => Throw e
  | Ok x =>
      match Js.optionalMap x "name" with
      | Throw e => Throw e
      | Ok (Some names) => Ok (ModelNames names)
      | Ok None => Ok (ModelNames [])
      end
  end.

(** [data.data?.map((m) => m.id) || data.models || []] *)
Definition openaiModels (data : Json) : Exc Models :=
  match Js.getMember data "data" with
  | Throw e => Throw e
  | Ok x =>
      match Js.optionalMap x "id" with
      | Throw e => Throw e
      | Ok (Some ids) => Ok (ModelNames ids)
      | Ok None =>
          match Js.getMember data "models" with
          | Throw e => Throw e
          | Ok (Some j) =>
              if Js.truthyJson j then Ok (ModelsRaw j) else Ok (ModelNames [])
          | Ok None => Ok (ModelNames [])
          end
      end
  end.

(** The first [try] block of [checkLocalServerAvailability]; [None]
    when control leaves the block without returning. *)
Definition tryOllama (baseUrl : string) (timeout : Z)
  : M (option ServerAvailability) :=
  let* ollamaResponse := fetch (ollamaTagsUrl baseUrl) timeout in
  if ok ollamaResponse then
    let* data := lift (json ollamaResponse) in
    let* names := lift (ollamaModels data) in
    ret (Some (available ollama baseUrl names))
  else ret None.

(** The second [try] block. *)
Definition tryOpenAI (baseUrl : string) (timeout : Z)
  : M (option ServerAvailability) :=
  let* modelsResponse := fetch (modelsUrl baseUrl) timeout in
  if ok modelsResponse then
    let* data := lift (json modelsResponse) in
    let* models := lift (openaiModels data) in
    ret (Some (available (if includes baseUrl ":8000" then vllm else custom)
                         baseUrl models))
  else ret None.

(** [checkLocalServerAvailability(baseUrl, timeout = 5000)] *)
Definition checkLocalServerAvailability
    (baseUrl : string) (timeout : option Z) : M ServerAvailability :=
  let timeout := default 5000%Z timeout in
  let* first := tryCatch (tryOllama baseUrl timeout) (fun _error => ret None) in
  match first with
  | Some result => ret result
  | None =>
      let* second :=
        tryCatch (tryOpenAI baseUrl timeout)
          (fun error => ret (Some (unavailable (errorText error)))) in
      match second with
      | Some result => ret result
      | None =>
          ret (unavailable "No local model server found at the specified URL")
      end
  end.

Definition commonEndpoints : list string :=
  [ "http://localhost:11434/v1";
    "http://127.0.0.1:11434/v1";
    "http://localhost:8000/v1";
    "http://127.0.0.1:8000/v1" ].

(** The [for (const endpoint of commonEndpoints)] loop of
    [autoDetectLocalServer]; [None] when the loop runs to its end. *)
Fixpoint probeEach (endpoints : list string)
  : M (option ServerAvailability) :=
  match endpoints with
  | [] => ret None
  | endpoint :: rest =>
      let* result := checkLocalServerAvailability endpoint (Some 2000%Z) in
      if isAvailable result then ret (Some result) else probeEach rest
  end.

(** [autoDetectLocalServer()] *)
Definition autoDetectLocalServer : M ServerAvailability :=
  let* found := probeEach commonEndpoints in
  match found with
  | Some result => ret result
  | None =>
      ret (unavailable
             "No local model server detected on common ports (11434, 8000)")
  end.

(** *** Vocabulary for the probe *)

(** The outcome of the next [fetch] when it asks the Ollama tags
    endpoint derived from [baseUrl]. *)
Definition tagsOutcome (w : World) (baseUrl : string) (timeout : Z)
  : Exc Response :=
  fetchOutcome w (length (calls w)) (ollamaTagsUrl baseUrl) timeout.

(** The outcome of the [fetch] after that when it asks the
    OpenAI-compatible models endpoint. *)
Definition modelsOutcome (w : World) (baseUrl : string) (timeout : Z)
  : Exc Response :=
  fetchOutcome w (S (length (calls w))) (modelsUrl baseUrl) timeout.

(** The endpoint responded ok. *)
Definition respondsOk (outcome : Exc Response) : bool :=
  match outcome with
  | Ok response => ok response
  | Throw _ => false
  end.

(** The endpoint responded ok and [read] obtained the model list from
    the body of the response. *)
Definition answer (read : Json -> Exc Models) (outcome : Exc Response)
  : option Models :=
  match outcome with
  | Ok response =>
      if ok response then
        match json response with
        | Ok data =>
            match read data with
            | Ok models => Some models
            | Throw _ => None
            end
        | Throw _ => None
        end
      else None
  | Throw _ => None
  end.

(** What [checkLocalServerAvailability] returns once the tags probe
    has produced nothing, by the outcome of the models request. *)
Definition afterModels (baseUrl : string) (outcome : Exc Response)
  : ServerAvailability :=
  match outcome with
  | Throw e => unavailable (errorText e)
  | Ok response =>
      if ok response then
        match json response with
        | Throw e => unavailable (errorText e)
        | Ok data =>
            match openaiModels data with
            | Throw e => unavailable (errorText e)
            | Ok models =>
                available (if includes baseUrl ":8000" then vllm else custom)
                          baseUrl models
            end
        end
      else unavailable "No local model server found at the specified URL"
  end.

(** The two requests one probe of [endpoint] can issue, in order. *)
Definition probeRequests (timeout : Z) (endpoint : string)
  : list (string * Z) :=
  [ (ollamaTagsUrl endpoint, timeout); (modelsUrl endpoint, timeout) ].

(** Probing [endpoints] one after the other from world [w], each with a
    2000 ms time-out, stopping at the first that is available: the
    result found, if any, and the world reached. *)
Inductive ProbedInOrder
  : list string -> World -> option ServerAvailability -> World -> Prop :=
| probed_none (w : World) :
    ProbedInOrder [] w None w
| probed_hit (endpoint : string) (rest : list string) (w w' : World)
      (result : ServerAvailability) :
    checkLocalServerAvailability endpoint (Some 2000%Z) w = (Ok result, w') ->
    isAvailable result = true ->
    ProbedInOrder (endpoint :: rest) w (Some result) w'
| probed_miss (endpoint : string) (rest : list string) (w w' w'' : World)
      (result : ServerAvailability) (found : option ServerAvailability) :
    checkLocalServerAvailability endpoint (Some 2000%Z) w = (Ok result, w') ->
    isAvailable result = false ->
    ProbedInOrder rest w' found w'' ->
    ProbedInOrder (endpoint :: rest) w found w''.

(** A network on which every request is refused. *)
Definition nothingListening : World :=
  {| script := fun _ _ _ => Throw (TypeError "fetch failed"); calls := [] |}.

(** A network on which one URL answers ok with [body] and every other
    request is refused. *)
Definition onlyAnswering (url : string) (body : Exc Json) : World :=
  {| script := fun _ u _ =>
       if String.eqb u url then Ok {| ok := true; json := body |}
       else Throw (TypeError "fetch failed");
     calls := [] |}.

(** A network whose tags endpoint answers ok with a body that is not
    JSON (say, an HTML page), while the models endpoint answers ok with
    an empty model list. *)
Definition pageThenModels : World :=
  {| script := fun n _ _ =>
       match n with
       | O => Ok {| ok := true;
                    json := Throw (ErrorObject "SyntaxError"
                                     "Unexpected token '<'") |}
       | _ => Ok {| ok := true;
                    json := Ok (JObj (<["data" := JArr []]> ∅)) |}
       end;
     calls := [] |}.

End OfflineDetection.

(** ** The providers' own availability checks *)

Module OllamaProviderStatic.
Import OfflineDetection.

(** [s] without its first [n] characters. *)
Fixpoint dropFirst (n : nat) (s : string) : string :=
  match n, s with
  | O, _ => s
  | S n', String _ s' => dropFirst n' s'
  | S _, EmptyString => EmptyString
  end.

(** [s.replace(pattern, replacement)] for a string pattern and a
    replacement without [$] patterns: the first occurrence of
    [pattern] is replaced. *)
Fixpoint replaceFirst (s pattern replacement : string) : string :=
  if startsWith s pattern
  then replacement ++ dropFirst (String.length pattern) s
  else
    match s with
    | EmptyString => EmptyString
    | String c s' => String c (replaceFirst s' pattern replacement)
    end.

(** [const tagsUrl = url.replace('/v1', '/api/tags')] with
    [url = baseUrl || DEFAULT_OLLAMA_BASE_URL] *)
Definition tagsUrl (baseUrl : option string) : string :=
  let url := orElse baseUrl OllamaProvider.DEFAULT_OLLAMA_BASE_URL in
  replaceFirst url "/v1" "/api/tags".

(** [static async checkAvailability(baseUrl?)] *)
Definition checkAvailability (baseUrl : option string) : M bool :=
  tryCatch
    (let* response := fetch (tagsUrl baseUrl) 5000%Z in
     ret (ok response))
    (fun _error => ret false).

(** [data.models?.map((m) => m.name) || []] *)
Definition modelNames (data : Json) : Exc (list (option Json)) :=
  match Js.getMember data "models" with
  | Throw e => Throw e
  | Ok x =>
      match Js.optionalMap x "name" with
      | Throw e => Throw e
      | Ok (Some names) => Ok names
      | Ok None => Ok []
      end
  end.

(** [static async listModels(baseUrl?)] *)
Definition listModels (baseUrl : option string) : M (list (option Json)) :=
  tryCatch
    (let* response := fetch (tagsUrl baseUrl) 5000%Z in
     if negb (ok response) then ret []
     else
       let* data := lift (json response) in
       lift (modelNames data))
    (fun _error => ret []).

End OllamaProviderStatic.

Module VllmProviderStatic.
Import OfflineDetection.

(** [const modelsUrl = `${url}/models`] with
    [url = baseUrl || DEFAULT_VLLM_BASE_URL] *)
Definition modelsUrl (baseUrl : option string) : string :=
  orElse baseUrl VllmProvider.DEFAULT_VLLM_BASE_URL ++ "/models".

(** [static async checkAvailability(baseUrl?)] *)
Definition checkAvailability (baseUrl : option string) : M bool :=
  tryCatch
    (let* response := fetch (modelsUrl baseUrl) 5000%Z in
     ret (ok response))
    (fun _error => ret false).

End VllmProviderStatic.

(** ** Headers and client set-up of the local providers *)

(** [process.platform] and [process.arch]. *)
Class Process : Type := {
  platform : string;
  arch : string
}.

(** [DEFAULT_TIMEOUT] and [DEFAULT_MAX_RETRIES]; the constants module
    is not part of the sources at hand. *)
Class Constants : Type := {
  DEFAULT_TIMEOUT : Z;
  DEFAULT_MAX_RETRIES : Z
}.

Module Client.

(** The options object handed to [new OpenAI(...)]. The constructor
    belongs to the OpenAI SDK and is not modelled: what it makes of the
    options (such as substituting its own default for an empty
    [baseURL]) lies outside this development. *)
Record Options : Type := {
  apiKey : string;
  baseURL : string;
  timeout : Z;
  maxRetries : Z;
  defaultHeaders : gmap string string
}.

(** [buildHeaders()] of a local provider whose human-readable name is
    [name]. *)
Definition buildHeaders `{Process} (name : string) (cliConfig : Config)
  : gmap string string :=
  let version := orElse (getCliVersion cliConfig) "unknown" in
  let userAgent :=
    "QwenCode/" ++ version ++ " (" ++ platform ++ "; " ++ arch ++ "; "
      ++ name ++ ")" in
  <["User-Agent" := userAgent]>
    (<["Content-Type" := "application/json"]> ∅).

(** [buildClient()] of a local provider, up to the call of the
    constructor: the fields of [this.contentGeneratorConfig] are
    destructured with defaults (a default applies to [undefined] only)
    and collected, together with the headers, in the options passed to
    [new OpenAI(...)]; the result is that options object. Destructuring
    [undefined] throws. *)
Definition buildClient `{Process} `{Constants}
    (name placeholderKey defaultBaseUrl : string) (this : Provider)
  : Exc Options :=
  match contentGeneratorConfig this with
  | None =>
      Throw (TypeError
               "Cannot destructure property 'apiKey' of 'this.contentGeneratorConfig' as it is undefined.")
  | Some (Build_ContentGeneratorConfig baseUrl apiKey _ timeout maxRetries) =>
      Ok {| apiKey := default placeholderKey apiKey;
            baseURL := default defaultBaseUrl baseUrl;
            timeout := default DEFAULT_TIMEOUT timeout;
            maxRetries := default DEFAULT_MAX_RETRIES maxRetries;
            defaultHeaders := buildHeaders name (cliConfig this) |}
  end.

(** [OllamaProvider.prototype.buildClient] *)
Definition ollamaBuildClient `{Process} `{Constants} (this : Provider)
  : Exc Options :=
  buildClient "Ollama" "ollama" OllamaProvider.DEFAULT_OLLAMA_BASE_URL this.

(** [VllmProvider.prototype.buildClient] *)
Definition vllmBuildClient `{Process} `{Constants} (this : Provider)
  : Exc Options :=
  buildClient "vLLM" "vllm" VllmProvider.DEFAULT_VLLM_BASE_URL this.

End Client.

(** ** The vocabulary of the specification *)

(** [t] occurs in [s]. *)
Definition Contains (s t : string) : Prop :=
  exists pre post, s = pre ++ t ++ post.

(** [s] begins with [p]. *)
Definition StartsWith (s p : string) : Prop :=
  exists post, s = p ++ post.

(** [t] occurs in [s] up to the case of ASCII letters. *)
Definition ContainsIgnoringCase (s t : string) : Prop :=
  exists pre mid post,
    s = pre ++ mid ++ post /\ toLowerCase mid = toLowerCase t.

(** The configured base URL contains [t]. *)
Definition BaseUrlContains (config : ContentGeneratorConfig) (t : string)
  : Prop :=
  exists u, baseUrl config = Some u /\ Contains u t.

(** The configured base URL contains [t] in some mix of upper and lower
    case. *)
Definition BaseUrlContainsIgnoringCase (config : ContentGeneratorConfig)
    (t : string) : Prop :=
  exists u, baseUrl config = Some u /\ ContainsIgnoringCase u t.

(** The configured model contains a colon and starts with [p]. *)
Definition ModelIsTagged (config : ContentGeneratorConfig) (p : string)
  : Prop :=
  exists m, model config = Some m /\ Contains m ":" /\ StartsWith m p.

(** The Ollama detection predicate, read word for word: plain substring
    tests on the base URL. *)
Definition OllamaPredicateAsStated (config : ContentGeneratorConfig) : Prop :=
  BaseUrlContains config "localhost:11434" \/
  BaseUrlContains config "127.0.0.1:11434" \/
  ModelIsTagged config "qwen".

(** The Ollama detection predicate with the base URL matched up to
    letter case. *)
Definition OllamaPredicate (config : ContentGeneratorConfig) : Prop :=
  BaseUrlContainsIgnoringCase config "localhost:11434" \/
  BaseUrlContainsIgnoringCase config "127.0.0.1:11434" \/
  ModelIsTagged config "qwen".

(** The resolver's priority order as a list of predicate and variant. *)
Definition priorityOrder `{CloudPredicates}
  : list ((ContentGeneratorConfig -> bool) * ProviderVariant) :=
  [ (OllamaProvider.isOllamaProvider, Ollama);
    (VllmProvider.isVllmProvider, Vllm);
    (isDashScopeProvider, DashScope);
    (isDeepSeekProvider, DeepSeek);
    (isOpenRouterProvider, OpenRouter);
    (isModelScopeProvider, ModelScope);
    (fun _ => true, Default) ].

(** The variant of the first entry whose predicate accepts [config]. *)
Fixpoint firstMatch
    (order : list ((ContentGeneratorConfig -> bool) * ProviderVariant))
    (config : ContentGeneratorConfig) : option ProviderVariant :=
  match order with
  | [] => None
  | (accepts, v) :: rest =>
      if accepts config then Some v else firstMatch rest config
  end.

(** A sample of cloud predicates that recognise their service by its
    host name; it instantiates the resolver in the examples below. *)
Definition hostNamePredicates : CloudPredicates :=
  let hasHost (host : string) (config : ContentGeneratorConfig) :=
    includes (orElse (baseUrl config) "") host in
  {| isDashScopeProvider := hasHost "dashscope.aliyuncs.com";
     isDeepSeekProvider := hasHost "api.deepseek.com";
     isOpenRouterProvider := hasHost "openrouter.ai";
     isModelScopeProvider := hasHost "modelscope" |}.

(** A configuration with only a base URL and a model. *)
Definition configOf (url model : option string) : ContentGeneratorConfig :=
  {| baseUrl := url; apiKey := None; model := model;
     timeout := None; maxRetries := None |}.

Definition sampleCliConfig : Config :=
  {| getContentGeneratorConfig := None; getCliVersion := Some "0.1.0" |}.

(** The model rewrite of the Ollama adapter, read word for word: an
    exact hit in the alias map wins, else a name with a colon passes
    through, else the default tag. *)
Definition mapModelNameAsStated (name : string) : string :=
  match Js.ownProperty OllamaProvider.modelMap name with
  | Some tag => tag
  | None =>
      if includes name ":" then name
      else OllamaProvider.DEFAULT_OLLAMA_MODEL
  end.

(** The same rewrite with the alias looked up under the lower-cased
    name. *)
Definition mapModelNameIgnoringCase (name : string) : string :=
  match Js.ownProperty OllamaProvider.modelMap (toLowerCase name) with
  | Some tag => tag
  | None =>
      if includes name ":" then name
      else OllamaProvider.DEFAULT_OLLAMA_MODEL
  end.

(** A chat-completion request with a model, one message and a
    temperature of 0.7. *)
Definition sampleRequest (name : string) : JsObject :=
  <["model" := VStr name]>
    (<["messages" :=
         VJson (JArr [JObj (<["role" := JStr "user"]>
                              (<["content" := JStr "hello"]> ∅))])]>
       (<["temperature" := VJson (JNum 0x3FE6666666666666)]> ∅)).

(** A Node process on 64-bit Linux, and sample values for the two
    constants; they instantiate the client set-up in the examples. *)
Definition linuxProcess : Process := {| platform := "linux"; arch := "x64" |}.

Definition sampleConstants : Constants :=
  {| DEFAULT_TIMEOUT := 120000; DEFAULT_MAX_RETRIES := 3 |}.

(** A CLI object that holds the configuration [config]. *)
Definition cliHolding (config : ContentGeneratorConfig) : Config :=
  {| getContentGeneratorConfig := Some config; getCliVersion := Some "0.1.0" |}.

(** The body of a tags response that lists one model. *)
Definition oneModelBody : Json :=
  JObj (<["models" :=
            JArr [JObj (<["name" := JStr "qwen3-coder:14b"]> ∅)]]> ∅).

(** ** Facts about the string primitives *)

Section StringFacts.

Lemma append_cons (c : ascii) (s t : string) :
  String c s ++ t = String c (s ++ t).
Proof. reflexivity. Qed.

Lemma append_nil_r (s : string) : s ++ "" = s.
Proof.
  induction s as [|c s IH]; [reflexivity|].
  rewrite append_cons. now rewrite IH.
Qed.

Lemma append_assoc (s t u : string) : (s ++ t) ++ u = s ++ t ++ u.
Proof.
  induction s as [|c s IH]; [reflexivity|].
  rewrite !append_cons. now rewrite IH.
Qed.

Lemma prefix_StartsWith (p s : string) :
  String.prefix p s = true <-> StartsWith s p.
Proof.
  revert s. induction p as [|c p IH]; intros s.
  - split; [intros _; now exists s|]. now destruct s.
  - destruct s as [|d s]; simpl.
    + split; [discriminate|]. intros [post Hpost]. discriminate.
    + destruct (ascii_dec c d) as [->|Hne].
      * rewrite IH. split; intros [post Hpost]; exists post.
        -- rewrite append_cons. now rewrite Hpost.
        -- rewrite append_cons in Hpost. now injection Hpost.
      * split; [discriminate|]. intros [post Hpost].
        rewrite append_cons in Hpost. injection Hpost as Hcd _.
        now destruct Hne.
Qed.

Lemma startsWith_StartsWith (s p : string) :
  startsWith s p = true <-> StartsWith s p.
Proof. apply prefix_StartsWith. Qed.

Lemma includes_Contains (s t : string) :
  includes s t = true <-> Contains s t.
Proof.
  induction s as [|c s IH]; cbn [includes]; rewrite orb_true_iff.
  - split.
    + intros [Hp|Hf]; [|discriminate].
      apply startsWith_StartsWith in Hp as [post Hpost].
      now exists "", post.
    + intros [pre [post Heq]]. left. apply startsWith_StartsWith.
      destruct pre; [now exists post | discriminate].
  - rewrite IH. split.
    + intros [Hp|[pre [post Heq]]].
      * apply startsWith_StartsWith in Hp as [post Hpost].
        now exists "", post.
      * exists (String c pre), post. rewrite append_cons. now rewrite Heq.
    + intros [pre [post Heq]]. destruct pre as [|d pre].
      * left. apply startsWith_StartsWith. now exists post.
      * right. rewrite append_cons in Heq. injection Heq as _ Heq.
        now exists pre, post.
Qed.

Lemma includes_false_Contains (s t : string) :
  includes s t = false <-> ~ Contains s t.
Proof.
  rewrite <- includes_Contains. now destruct (includes s t).
Qed.

Lemma toLowerCase_append (s t : string) :
  toLowerCase (s ++ t) = toLowerCase s ++ toLowerCase t.
Proof.
  induction s as [|c s IH]; [reflexivity|].
  rewrite append_cons. simpl. rewrite append_cons. now rewrite IH.
Qed.

Lemma toLowerCase_split (s a b : string) :
  toLowerCase s = a ++ b ->
  exists a' b', s = a' ++ b' /\ toLowerCase a' = a /\ toLowerCase b' = b.
Proof.
  revert s. induction a as [|c a IH]; intros s Heq.
  - now exists "", s.
  - destruct s as [|d s]; [discriminate|].
    rewrite append_cons in Heq. simpl in Heq. injection Heq as Hc Hs.
    destruct (IH s Hs) as (a' & b' & -> & <- & <-).
    exists (String d a'), b'. simpl. now rewrite Hc.
Qed.

Lemma lowerChar_idempotent (c : ascii) : lowerChar (lowerChar c) = lowerChar c.
Proof. destruct c as [[] [] [] [] [] [] [] []]; reflexivity. Qed.

Lemma toLowerCase_idempotent (s : string) :
  toLowerCase (toLowerCase s) = toLowerCase s.
Proof.
  induction s as [|c s IH]; [reflexivity|].
  simpl. now rewrite lowerChar_idempotent, IH.
Qed.

(** Matching a lower-case needle against the lowered string is
    matching up to letter case. *)
Lemma includes_toLowerCase_iff (s t : string) :
  toLowerCase t = t ->
  includes (toLowerCase s) t = true <-> ContainsIgnoringCase s t.
Proof.
  intros Ht. rewrite includes_Contains. split.
  - intros (pre & post & Heq).
    apply toLowerCase_split in Heq as (pre' & rest & -> & _ & Hrest).
    apply toLowerCase_split in Hrest as (mid & post' & -> & Hmid & _).
    exists pre', mid, post'. now rewrite Ht.
  - intros (pre & mid & post & -> & Hmid).
    exists (toLowerCase pre), (toLowerCase post).
    rewrite !toLowerCase_append. now rewrite Hmid, Ht.
Qed.

Lemma Contains_ignoring_case (s t : string) :
  Contains s t -> ContainsIgnoringCase s t.
Proof. intros (pre & post & ->). now exists pre, t, post. Qed.

Lemma startsWith_char (c d : ascii) (s : string) :
  startsWith (String c s) (String d "") = if ascii_dec d c then true else false.
Proof.
  unfold startsWith. simpl.
  destruct (ascii_dec d c); [now destruct s | reflexivity].
Qed.

Lemma lowerChar_colon (c : ascii) :
  lowerChar c = ":"%char <-> c = ":"%char.
Proof.
  destruct c as [[] [] [] [] [] [] [] []]; vm_compute; split; congruence.
Qed.

(** Lowering the string does not move its colons. *)
Lemma includes_colon_toLowerCase (s : string) :
  includes (toLowerCase s) ":" = includes s ":".
Proof.
  induction s as [|c s IH]; [reflexivity|].
  cbn [toLowerCase includes]. rewrite IH, !startsWith_char.
  destruct (ascii_dec ":" (lowerChar c)) as [Hl|Hl],
           (ascii_dec ":" c) as [Hc|Hc]; try reflexivity.
  - destruct Hc. symmetry. now apply lowerChar_colon.
  - destruct Hl. symmetry. now apply lowerChar_colon.
Qed.

End StringFacts.

(** ** The detection predicates *)

Section Predicates.

Lemma orElse_empty (v : option string) : orElse v "" = default "" v.
Proof. destruct v as [[|c s]|]; reflexivity. Qed.

Lemma lowered_baseUrl (config : ContentGeneratorConfig) :
  orElse (toLowerCase <$> baseUrl config) ""
  = toLowerCase (default "" (baseUrl config)).
Proof. rewrite orElse_empty. now destruct (baseUrl config). Qed.

(** The predicate as one boolean expression. *)
Lemma isOllamaProvider_unfold (config : ContentGeneratorConfig) :
  OllamaProvider.isOllamaProvider config =
  let url := toLowerCase (default "" (baseUrl config)) in
  let m := default "" (model config) in
  includes url "localhost:11434" || includes url "127.0.0.1:11434"
  || (includes m ":" && startsWith m "qwen").
Proof.
  unfold OllamaProvider.isOllamaProvider.
  rewrite lowered_baseUrl, orElse_empty. cbv zeta.
  destruct (includes _ "localhost:11434" || includes _ "127.0.0.1:11434");
    [reflexivity|].
  now destruct (includes _ ":" && startsWith _ "qwen").
Qed.

Lemma isVllmProvider_unfold (config : ContentGeneratorConfig) :
  VllmProvider.isVllmProvider config =
  let url := toLowerCase (default "" (baseUrl config)) in
  includes url "localhost:8000" || includes url "127.0.0.1:8000".
Proof.
  unfold VllmProvider.isVllmProvider. rewrite lowered_baseUrl. cbv zeta.
  now destruct (includes _ "localhost:8000" || includes _ "127.0.0.1:8000").
Qed.

Lemma lowered_includes_iff (config : ContentGeneratorConfig) (t : string) :
  toLowerCase t = t -> t <> "" ->
  includes (toLowerCase (default "" (baseUrl config))) t = true
  <-> BaseUrlContainsIgnoringCase config t.
Proof.
  intros Ht Hne. rewrite includes_toLowerCase_iff by exact Ht.
  unfold BaseUrlContainsIgnoringCase. destruct (baseUrl config) as [u|].
  - split; [intros Hc; now exists u|]. now intros (u' & [= <-] & Hc).
  - split; [|now intros (u' & [=] & _)].
    intros (pre & mid & post & Heq & Hmid). exfalso.
    destruct pre; [|discriminate]. destruct mid; [|discriminate].
    rewrite <- Hmid in Ht. now destruct Hne.
Qed.

Lemma tagged_model_iff (config : ContentGeneratorConfig) (p : string) :
  includes (default "" (model config)) ":"
  && startsWith (default "" (model config)) p = true
  <-> ModelIsTagged config p.
Proof.
  rewrite andb_true_iff, includes_Contains, startsWith_StartsWith.
  unfold ModelIsTagged. destruct (model config) as [m|].
  - split; [intros [Hc Hs]; now exists m|]. now intros (m' & [= <-] & Hc).
  - split; [|now intros (m' & [=] & _)].
    intros [(pre & post & Heq) _]. exfalso.
    destruct pre; discriminate.
Qed.

Lemma isOllamaProvider_iff (config : ContentGeneratorConfig) :
  OllamaProvider.isOllamaProvider config = true <-> OllamaPredicate config.
Proof.
  rewrite isOllamaProvider_unfold. cbv zeta.
  rewrite !orb_true_iff, tagged_model_iff.
  rewrite !lowered_includes_iff by (reflexivity || discriminate).
  unfold OllamaPredicate. tauto.
Qed.

Lemma BaseUrlContains_ignoring_case (config : ContentGeneratorConfig)
    (t : string) :
  BaseUrlContains config t -> BaseUrlContainsIgnoringCase config t.
Proof.
  intros (u & Hu & Hc). exists u. split; [exact Hu|].
  now apply Contains_ignoring_case.
Qed.

Lemma isVllmProvider_of_baseUrl (config : ContentGeneratorConfig) :
  BaseUrlContains config "localhost:8000" \/
  BaseUrlContains config "127.0.0.1:8000" ->
  VllmProvider.isVllmProvider config = true.
Proof.
  intros Hc. rewrite isVllmProvider_unfold. cbv zeta.
  rewrite orb_true_iff.
  rewrite !lowered_includes_iff by (reflexivity || discriminate).
  destruct Hc as [Hc|Hc]; [left|right];
    now apply BaseUrlContains_ignoring_case.
Qed.

End Predicates.

(** ** The resolver *)

Section ResolverFacts.
Context `{CloudPredicates}.

(** On a configuration object the resolver returns a provider that
    stores both arguments and whose class is the first match of the
    priority order. *)
Lemma determineProvider_firstMatch
    (config : ContentGeneratorConfig) (cli : Config) :
  exists v,
    firstMatch priorityOrder config = Some v /\
    determineProvider (Some config) cli = Ok (newProvider v (Some config) cli).
Proof.
  unfold determineProvider, priorityOrder. cbn [firstMatch].
  destruct (OllamaProvider.isOllamaProvider config); [eauto|].
  destruct (VllmProvider.isVllmProvider config); [eauto|].
  destruct (isDashScopeProvider config); [eauto|].
  destruct (isDeepSeekProvider config); [eauto|].
  destruct (isOpenRouterProvider config); [eauto|].
  destruct (isModelScopeProvider config); eauto.
Qed.

(** [firstMatch] picks the entry before which every predicate
    rejects. *)
Lemma firstMatch_first order config i accepts v :
  order !! i = Some (accepts, v) ->
  accepts config = true ->
  (forall j accepts' v',
      (j < i)%nat -> order !! j = Some (accepts', v') ->
      accepts' config = false) ->
  firstMatch order config = Some v.
Proof.
  revert i. induction order as [|[a w] rest IH]; intros i Hi Hacc Hbefore.
  - discriminate.
  - destruct i as [|i]; cbn [firstMatch].
    + injection Hi as -> ->. now rewrite Hacc.
    + rewrite (Hbefore 0%nat a w) by (reflexivity || lia).
      apply (IH i); [exact Hi | exact Hacc |].
      intros j a' v' Hj Hlook. apply (Hbefore (S j) a' v'); [lia | exact Hlook].
Qed.

(** C1. The resolver tries the predicates in the order Ollama, vLLM,
    DashScope, DeepSeek, OpenRouter, ModelScope, Default, and the
    first predicate that accepts the configuration fixes the variant
    returned: whenever the Ollama predicate holds the Ollama variant
    is returned, whatever the later predicates say; and whenever the
    base URL contains localhost:8000 or 127.0.0.1:8000 and the Ollama
    predicate does not hold, the vLLM variant is returned. *)
Theorem determineProvider_first_match_wins
    (config : ContentGeneratorConfig) (cli : Config) :
  map snd priorityOrder
    = [Ollama; Vllm; DashScope; DeepSeek; OpenRouter; ModelScope; Default] /\
  exists p,
    determineProvider (Some config) cli = Ok p /\
    (forall i accepts v,
        priorityOrder !! i = Some (accepts, v) ->
        accepts config = true ->
        (forall j accepts' v',
            (j < i)%nat -> priorityOrder !! j = Some (accepts', v') ->
            accepts' config = false) ->
        variant p = v) /\
    (OllamaProvider.isOllamaProvider config = true -> variant p = Ollama) /\
    (BaseUrlContains config "localhost:8000" \/
     BaseUrlContains config "127.0.0.1:8000" ->
     OllamaProvider.isOllamaProvider config = false ->
     variant p = Vllm).
Proof.
  split; [reflexivity|].
  destruct (determineProvider_firstMatch config cli) as (v & Hfirst & Hp).
  eexists. split; [exact Hp|]. cbn [variant newProvider].
  assert (Hwins : forall i accepts w,
             priorityOrder !! i = Some (accepts, w) ->
             accepts config = true ->
             (forall j accepts' v',
                 (j < i)%nat -> priorityOrder !! j = Some (accepts', v') ->
                 accepts' config = false) ->
             v = w).
  { intros i accepts w Hi Hacc Hbefore.
    pose proof (firstMatch_first _ _ _ _ _ Hi Hacc Hbefore) as Hw.
    congruence. }
  split; [exact Hwins|]. split.
  - intros Hollama.
    apply (Hwins 0%nat OllamaProvider.isOllamaProvider Ollama);
      [reflexivity | exact Hollama | intros; lia].
  - intros Hurl Hollama.
    apply (Hwins 1%nat VllmProvider.isVllmProvider Vllm);
      [reflexivity | now apply isVllmProvider_of_baseUrl |].
    intros [|j] a' v' Hj Hlook; [|lia].
    injection Hlook as <- _. exact Hollama.
Qed.

(** C3. Resolution is total and deterministic: on every configuration
    object the resolver returns exactly one provider and does not
    throw, the variant is the same whatever else the call is given,
    and a configuration with neither base URL nor model resolves to
    the Default variant (the cloud predicates, which live outside
    these sources, rejecting such a configuration). *)
Theorem determineProvider_total_deterministic
    (config : ContentGeneratorConfig) (cli : Config) :
  (exists! p, determineProvider (Some config) cli = Ok p) /\
  (forall cli' p p',
      determineProvider (Some config) cli = Ok p ->
      determineProvider (Some config) cli' = Ok p' ->
      variant p = variant p') /\
  (baseUrl config = None -> model config = None ->
   isDashScopeProvider config = false ->
   isDeepSeekProvider config = false ->
   isOpenRouterProvider config = false ->
   isModelScopeProvider config = false ->
   determineProvider (Some config) cli
     = Ok (newProvider Default (Some config) cli)).
Proof.
  split; [|split].
  - destruct (determineProvider_firstMatch config cli) as (v & _ & Hp).
    exists (newProvider v (Some config) cli). split; [exact Hp|].
    intros p' Hp'. congruence.
  - intros cli' p p' Hp Hp'.
    destruct (determineProvider_firstMatch config cli) as (v & Hv & Hq).
    destruct (determineProvider_firstMatch config cli') as (v' & Hv' & Hq').
    assert (v = v') by congruence. subst v'.
    rewrite Hq in Hp. rewrite Hq' in Hp'.
    injection Hp as <-. injection Hp' as <-. reflexivity.
  - intros Hurl Hmodel Hds Hdk Hor Hms.
    unfold determineProvider.
    rewrite isOllamaProvider_unfold, isVllmProvider_unfold.
    rewrite Hurl, Hmodel, Hds, Hdk, Hor, Hms. reflexivity.
Qed.

(** C4, as amended. The Ollama predicate holds exactly when the base
    URL contains localhost:11434 or 127.0.0.1:11434 in any mix of
    upper and lower case, or the model contains a colon and starts
    with qwen; in particular every configuration whose base URL
    contains one of the two host:port strings resolves to the Ollama
    variant. *)
Theorem isOllamaProvider_exactly
    (config : ContentGeneratorConfig) (cli : Config) :
  (OllamaProvider.isOllamaProvider config = true <-> OllamaPredicate config) /\
  (BaseUrlContains config "localhost:11434" \/
   BaseUrlContains config "127.0.0.1:11434" ->
   determineProvider (Some config) cli
     = Ok (newProvider Ollama (Some config) cli)).
Proof.
  split; [apply isOllamaProvider_iff|].
  intros Hurl.
  assert (Hollama : OllamaProvider.isOllamaProvider config = true).
  { apply isOllamaProvider_iff.
    destruct Hurl as [Hc|Hc]; [left | right; left];
      now apply BaseUrlContains_ignoring_case. }
  unfold determineProvider. now rewrite Hollama.
Qed.

(** C10. The base-URL tests of the Ollama predicate ignore letter
    case (LOCALHOST:11434 matches), the model test does not: when the
    base URL has neither host:port string in any letter case and the
    model contains a colon but starts with Qwen, the predicate is
    false and the resolver does not return the Ollama variant. *)
Theorem isOllamaProvider_case_sensitivity
    (config : ContentGeneratorConfig) (cli : Config) :
  (BaseUrlContainsIgnoringCase config "localhost:11434" \/
   BaseUrlContainsIgnoringCase config "127.0.0.1:11434" ->
   OllamaProvider.isOllamaProvider config = true) /\
  OllamaProvider.isOllamaProvider
    (configOf (Some "http://LOCALHOST:11434/v1") None) = true /\
  (~ BaseUrlContainsIgnoringCase config "localhost:11434" ->
   ~ BaseUrlContainsIgnoringCase config "127.0.0.1:11434" ->
   ModelIsTagged config "Qwen" ->
   OllamaProvider.isOllamaProvider config = false /\
   exists p, determineProvider (Some config) cli = Ok p /\
             variant p <> Ollama).
Proof.
  split; [|split; [reflexivity|]].
  - intros Hurl. apply isOllamaProvider_iff.
    destruct Hurl; [left | right; left]; assumption.
  - intros Hno1 Hno2 (m & Hm & _ & post & ->).
    assert (Hollama : OllamaProvider.isOllamaProvider config = false).
    { apply not_true_is_false. rewrite isOllamaProvider_iff.
      intros [Hc|[Hc|(m' & Hm' & _ & post' & Heq)]];
        [now apply Hno1 | now apply Hno2 |].
      rewrite Hm in Hm'. injection Hm' as <-. discriminate. }
    split; [exact Hollama|].
    destruct (determineProvider_firstMatch config cli) as (v & Hv & Hp).
    eexists. split; [exact Hp|]. cbn [variant newProvider].
    intros ->. unfold priorityOrder in Hv. cbn [firstMatch] in Hv.
    rewrite Hollama in Hv.
    repeat match type of Hv with
           | (if ?b then _ else _) = _ => destruct b; [discriminate|]
           end.
    discriminate.
Qed.

End ResolverFacts.

(** ** The request adapters *)

Section Adapters.

Lemma spread_empty (request : JsObject) : Js.spread ∅ request = request.
Proof. unfold Js.spread. apply (right_id_L ∅ (∪)). Qed.

(** No alias contains a colon, and every tag is a non-empty string. *)
Lemma modelMap_entry (key tag : string) :
  Js.ownProperty OllamaProvider.modelMap key = Some tag ->
  includes key ":" = false /\ Js.truthy (VStr tag) = true.
Proof.
  unfold OllamaProvider.modelMap. cbn [Js.ownProperty].
  repeat match goal with
         | |- context [String.eqb ?k key] =>
             destruct (String.eqb_spec k key) as [<-|_];
             [intros [= <-]; split; reflexivity|]
         end.
  discriminate.
Qed.

(** A lower-cased name can only meet the two all-lower-case members
    of [Object.prototype]. *)
Lemma lowered_not_inherited (name : string) :
  toLowerCase name <> "constructor" ->
  toLowerCase name <> "__proto__" ->
  existsb (String.eqb (toLowerCase name)) Js.objectPrototypeKeys = false.
Proof.
  intros Hctor Hproto.
  pose proof (toLowerCase_idempotent name) as Hidem.
  unfold Js.objectPrototypeKeys. cbn [existsb].
  repeat match goal with
         | |- context [String.eqb (toLowerCase name) ?k] =>
             destruct (String.eqb_spec (toLowerCase name) k) as [Heq|_];
             [exfalso; first [ now apply Hctor | now apply Hproto
                             | rewrite Heq in Hidem; discriminate Hidem ]|]
         end.
  reflexivity.
Qed.

(** On a string [mapModelName] always returns. *)
Lemma mapModelName_string_returns (name : string) :
  exists v, OllamaProvider.mapModelName (VStr name) = Ok v.
Proof.
  unfold OllamaProvider.mapModelName.
  destruct (includes name ":"); eauto.
Qed.

Lemma mapModelName_string (name : string) :
  toLowerCase name <> "constructor" ->
  toLowerCase name <> "__proto__" ->
  OllamaProvider.mapModelName (VStr name)
    = Ok (VStr (mapModelNameIgnoringCase name)).
Proof.
  intros Hctor Hproto.
  unfold OllamaProvider.mapModelName, mapModelNameIgnoringCase, Js.getIndex.
  destruct (Js.ownProperty OllamaProvider.modelMap (toLowerCase name))
    as [tag|] eqn:Hown.
  - apply modelMap_entry in Hown as [Hcolon Htag].
    rewrite includes_colon_toLowerCase in Hcolon. rewrite Hcolon.
    unfold Js.or. now rewrite Htag.
  - destruct (includes name ":"); [reflexivity|].
    now rewrite lowered_not_inherited.
Qed.

(** The request built for a string model: the input with [model] and
    [keep_alive] set. *)
Lemma ollama_buildRequest_string (request : JsObject) (name uid : string) :
  request !! "model" = Some (VStr name) ->
  exists mapped,
    OllamaProvider.mapModelName (VStr name) = Ok mapped /\
    OllamaProvider.buildRequest request uid
      = Ok (<["keep_alive" := VStr "5m"]> (<["model" := mapped]> request)).
Proof.
  intros Hmodel.
  destruct (mapModelName_string_returns name) as [mapped Hmapped].
  exists mapped. split; [exact Hmapped|].
  unfold OllamaProvider.buildRequest, Js.get.
  rewrite Hmodel. cbn [default from_option id]. rewrite Hmapped.
  now rewrite spread_empty.
Qed.

(** C2, as amended. For every request whose model name, lower-cased,
    is not the name of a property that object literals inherit
    ("constructor", "__proto__"), the Ollama adapter rewrites the
    model as follows: a hit of the lower-cased name in the alias map
    wins (qwen3-coder becomes qwen3-coder:14b); otherwise a name that
    contains a colon passes through unchanged (custom:latest);
    otherwise the default tag qwen3-coder:14b is used; and in every
    case keep_alive is set to 5m. *)
Theorem ollama_buildRequest_model (request : JsObject) (name uid : string) :
  request !! "model" = Some (VStr name) ->
  toLowerCase name <> "constructor" ->
  toLowerCase name <> "__proto__" ->
  exists out,
    OllamaProvider.buildRequest request uid = Ok out /\
    out !! "model" = Some (VStr (mapModelNameIgnoringCase name)) /\
    out !! "keep_alive" = Some (VStr "5m") /\
    mapModelNameIgnoringCase "qwen3-coder" = "qwen3-coder:14b" /\
    mapModelNameIgnoringCase "custom:latest" = "custom:latest" /\
    mapModelNameIgnoringCase "gpt-4o" = "qwen3-coder:14b".
Proof.
  intros Hmodel Hctor Hproto.
  destruct (ollama_buildRequest_string request name uid Hmodel)
    as (mapped & Hmapped & Hbuild).
  rewrite mapModelName_string in Hmapped by assumption.
  injection Hmapped as <-.
  eexists. split; [exact Hbuild|].
  rewrite lookup_insert_ne by discriminate.
  rewrite !lookup_insert_eq. repeat split; reflexivity.
Qed.

(** C7. The vLLM adapter returns a request equal to its input: the
    same properties with the same values. *)
Theorem vllm_buildRequest_identity (request : JsObject) (uid : string) :
  VllmProvider.buildRequest request uid = request.
Proof. unfold VllmProvider.buildRequest. apply spread_empty. Qed.

(** What [buildRequest] returns when it returns: the input with
    [model] and [keep_alive] set; the input then had a [model]. *)
Lemma ollama_buildRequest_returns (request out : JsObject) (uid : string) :
  OllamaProvider.buildRequest request uid = Ok out ->
  exists mapped,
    is_Some (request !! "model") /\
    out = <["keep_alive" := VStr "5m"]> (<["model" := mapped]> request).
Proof.
  unfold OllamaProvider.buildRequest, Js.get. rewrite spread_empty.
  destruct (request !! "model") as [model|]; cbn [default from_option id].
  - destruct (OllamaProvider.mapModelName model) as [mapped|e];
      [|discriminate].
    intros [= <-]. exists mapped. split; [now exists model | reflexivity].
  - discriminate.
Qed.

(** C9, as amended. Whenever the Ollama adapter returns a request, and
    it does for every input whose [model] is a string, every property
    other than [model] and [keep_alive] is as it was in the input and no
    property of the input is removed; [keep_alive] is set to 5m: when
    the input has no [keep_alive] it is the one property added, and when
    the input has one it is overwritten and no property is added. *)
Theorem ollama_buildRequest_preserves_fields
    (request : JsObject) (uid : string) :
  ((exists name, request !! "model" = Some (VStr name)) ->
   exists out, OllamaProvider.buildRequest request uid = Ok out) /\
  forall out,
    OllamaProvider.buildRequest request uid = Ok out ->
    (forall key, key <> "model" -> key <> "keep_alive" ->
                 out !! key = request !! key) /\
    (forall key, key ∈ dom request -> key ∈ dom out) /\
    out !! "keep_alive" = Some (VStr "5m") /\
    dom out = dom request ∪ {["keep_alive"]} /\
    (request !! "keep_alive" = None ->
     ("keep_alive" ∉ dom request) /\
     forall key, key <> "model" -> is_Some (request !! key) ->
                 out !! key = request !! key) /\
    (is_Some (request !! "keep_alive") -> dom out = dom request).
Proof.
  split.
  - intros [name Hmodel].
    destruct (ollama_buildRequest_string request name uid Hmodel)
      as (mapped & _ & Hbuild).
    eauto.
  - intros out Hbuild.
    apply ollama_buildRequest_returns in Hbuild as (mapped & Hmodel & ->).
    assert (Hdom : dom (<["keep_alive" := VStr "5m"]>
                          (<["model" := mapped]> request))
                   = dom request ∪ {["keep_alive"]}).
    { rewrite !dom_insert_L. apply set_eq. intros key.
      rewrite !elem_of_union, !elem_of_singleton. split.
      - intros [->|[->|Hkey]]; [now right | left | now left].
        now apply elem_of_dom.
      - intros [Hkey| ->]; [right; now right | now left]. }
    split; [|split; [|split; [|split; [|split]]]].
    + intros key Hmodel' Hkeep. now rewrite !lookup_insert_ne by congruence.
    + intros key Hin. rewrite Hdom. apply elem_of_union. now left.
    + apply lookup_insert_eq.
    + exact Hdom.
    + intros Hnone. split; [now apply not_elem_of_dom|].
      intros key Hne [v Hv].
      assert (key <> "keep_alive") by congruence.
      now rewrite !lookup_insert_ne by congruence.
    + intros Hsome. rewrite Hdom. apply set_eq. intros key.
      rewrite elem_of_union, elem_of_singleton. split; [|now left].
      intros [Hkey| ->]; [exact Hkey | now apply elem_of_dom].
Qed.

End Adapters.

(** ** The availability probe *)

Section ProbeFacts.
Import OfflineDetection.

Lemma logged_logged (w : World) (l1 l2 : list (string * Z)) :
  logged (logged w l1) l2 = logged w (l1 ++ l2).
Proof. unfold logged. cbn [script calls]. now rewrite <- app_assoc. Qed.

Lemma length_calls_logged (w : World) (request : string * Z) :
  length (calls (logged w [request])) = S (length (calls w)).
Proof. cbn [logged calls]. rewrite length_app. cbn [length]. lia. Qed.

Lemma requested_valid (w : World) (timeout : Z) (requests : list (string * Z)) :
  validTimeout timeout = true -> requested w timeout requests = logged w requests.
Proof. unfold requested. now intros ->. Qed.

Lemma fetch_valid (url : string) (timeout : Z) (w : World) :
  validTimeout timeout = true ->
  fetch url timeout w
  = (script w (length (calls w)) url timeout, logged w [(url, timeout)]).
Proof. unfold fetch, fetchOutcome, requested. now intros ->. Qed.

(** The first [try] block together with its [catch]: a result is
    returned exactly when the tags endpoint responded ok and the model
    list could be read from its body. *)
Lemma tryOllama_caught (baseUrl : string) (timeout : Z) (w : World) :
  tryCatch (tryOllama baseUrl timeout) (fun _ => ret None) w
  = (Ok (available ollama baseUrl
           <$> answer ollamaModels (tagsOutcome w baseUrl timeout)),
     requested w timeout [(ollamaTagsUrl baseUrl, timeout)]).
Proof.
  unfold tryCatch, tryOllama, bind, fetch, lift, ret, answer, tagsOutcome.
  destruct (fetchOutcome w _ _ _) as [response|e]; [|reflexivity].
  destruct (ok response); [|reflexivity].
  destruct (json response) as [data|e]; [|reflexivity].
  now destruct (ollamaModels data).
Qed.

(** The second [try] block together with its [catch] and the final
    [return]. *)
Lemma tryOpenAI_caught (baseUrl : string) (timeout : Z) (w : World) :
  bind (tryCatch (tryOpenAI baseUrl timeout)
          (fun error => ret (Some (unavailable (errorText error)))))
       (fun second =>
          match second with
          | Some result => ret result
          | None =>
              ret (unavailable
                     "No local model server found at the specified URL")
          end) w
  = (Ok (afterModels baseUrl
           (fetchOutcome w (length (calls w)) (modelsUrl baseUrl) timeout)),
     requested w timeout [(modelsUrl baseUrl, timeout)]).
Proof.
  unfold tryCatch, tryOpenAI, bind, fetch, lift, ret, afterModels.
  destruct (fetchOutcome w _ _ _) as [response|e]; [|reflexivity].
  destruct (ok response); [|reflexivity].
  destruct (json response) as [data|e]; [|reflexivity].
  now destruct (openaiModels data).
Qed.

(** [checkLocalServerAvailability] as a function of the two outcomes. *)
Lemma checkLocalServerAvailability_cases
    (baseUrl : string) (timeout : option Z) (w : World) :
  let t := default 5000%Z timeout in
  checkLocalServerAvailability baseUrl timeout w =
  match answer ollamaModels (tagsOutcome w baseUrl t) with
  | Some names =>
      (Ok (available ollama baseUrl names),
       logged w [(ollamaTagsUrl baseUrl, t)])
  | None =>
      (Ok (afterModels baseUrl (modelsOutcome w baseUrl t)),
       requested w t (probeRequests t baseUrl))
  end.
Proof.
  intros t. unfold checkLocalServerAvailability. fold t.
  unfold bind at 1. rewrite tryOllama_caught.
  destruct (answer ollamaModels (tagsOutcome w baseUrl t)) as [names|]
    eqn:Htags; cbn [fmap option_fmap option_map].
  - unfold requested. destruct (validTimeout t) eqn:Hvalid; [reflexivity|].
    unfold tagsOutcome, fetchOutcome in Htags. rewrite Hvalid in Htags.
    discriminate Htags.
  - rewrite tryOpenAI_caught. unfold requested, modelsOutcome, fetchOutcome.
    destruct (validTimeout t); [|reflexivity].
    now rewrite logged_logged, length_calls_logged.
Qed.

Lemma answer_respondsOk (read : Json -> Exc Models) (outcome : Exc Response) :
  respondsOk outcome = false -> answer read outcome = None.
Proof.
  unfold respondsOk, answer. destruct outcome as [response|e]; [|reflexivity].
  now intros ->.
Qed.

(** C5. [checkLocalServerAvailability] never throws: in every world it
    returns a value. When neither the tags endpoint nor the models
    endpoint responds ok, that value has [isAvailable] false and carries
    an [error] string: the fixed message, or the text of the failed
    request, which is non-empty as long as the network reports a failed
    request with a non-empty message. *)
Theorem checkLocalServerAvailability_never_throws
    (baseUrl : string) (timeout : option Z) (w : World) :
  let t := default 5000%Z timeout in
  exists result w',
    checkLocalServerAvailability baseUrl timeout w = (Ok result, w') /\
    (respondsOk (tagsOutcome w baseUrl t) = false ->
     respondsOk (modelsOutcome w baseUrl t) = false ->
     isAvailable result = false /\
     exists message,
       error result = Some message /\
       ((forall e, modelsOutcome w baseUrl t = Throw e -> errorText e <> "") ->
        message <> "")).
Proof.
  intros t.
  pose proof (checkLocalServerAvailability_cases baseUrl timeout w) as Hcases.
  cbv zeta in Hcases. fold t in Hcases.
  destruct (answer ollamaModels _) as [names|] eqn:Htags.
  - eexists _, _. split; [exact Hcases|].
    intros Hno. now rewrite (answer_respondsOk _ _ Hno) in Htags.
  - eexists _, _. split; [exact Hcases|].
    intros _ Hno. unfold afterModels.
    destruct (modelsOutcome _ _ _) as [response|e].
    + cbn [respondsOk] in Hno. rewrite Hno.
      split; [reflexivity|]. eexists. split; [reflexivity|]. discriminate.
    + split; [reflexivity|]. eexists. split; [reflexivity|].
      intros Hmessage. now apply Hmessage.
Qed.

(** C8, as amended. The server type is fixed by the endpoint that
    produced the result and by the port text. Whenever the tags
    endpoint responds ok and the model list is read from its body
    without error, the result is available with server type ollama,
    whatever port the URL names. When the tags probe produces no result
    (it did not respond ok, or its body could not be read) and the
    models endpoint responds ok with a body that is read without error,
    the server type is vllm if the base URL contains :8000 and custom
    otherwise. *)
Theorem checkLocalServerAvailability_serverType
    (baseUrl : string) (timeout : option Z) (w : World) :
  let t := default 5000%Z timeout in
  exists result w',
    checkLocalServerAvailability baseUrl timeout w = (Ok result, w') /\
    (forall names,
        answer ollamaModels (tagsOutcome w baseUrl t) = Some names ->
        result = available ollama baseUrl names) /\
    (forall models,
        answer ollamaModels (tagsOutcome w baseUrl t) = None ->
        answer openaiModels (modelsOutcome w baseUrl t) = Some models ->
        isAvailable result = true /\
        serverType result
          = Some (if includes baseUrl ":8000" then vllm else custom)) /\
    (forall type, serverType result = Some type ->
        match type with
        | ollama => respondsOk (tagsOutcome w baseUrl t) = true
        | vllm =>
            respondsOk (modelsOutcome w baseUrl t) = true /\
            Contains baseUrl ":8000"
        | custom =>
            respondsOk (modelsOutcome w baseUrl t) = true /\
            ~ Contains baseUrl ":8000"
        end).
Proof.
  intros t.
  pose proof (checkLocalServerAvailability_cases baseUrl timeout w) as Hcases.
  cbv zeta in Hcases. fold t in Hcases.
  destruct (answer ollamaModels _) as [names|] eqn:Htags.
  - eexists _, _. split; [exact Hcases|]. split; [|split].
    + now intros ? [= <-].
    + discriminate.
    + intros type [= <-]. unfold answer in Htags. unfold respondsOk.
      destruct (tagsOutcome w baseUrl t) as [response|e]; [|discriminate].
      now destruct (ok response).
  - eexists _, _. split; [exact Hcases|]. split; [|split].
    + discriminate.
    + intros models _ Hmodels. unfold afterModels, answer in *.
      destruct (modelsOutcome w baseUrl t) as [response|e]; [|discriminate].
      destruct (ok response); [|discriminate].
      destruct (json response) as [data|e]; [|discriminate].
      destruct (openaiModels data); [|discriminate].
      split; reflexivity.
    + intros type. unfold afterModels, respondsOk.
      destruct (modelsOutcome w baseUrl t) as [response|e]; [|discriminate].
      destruct (ok response); [|discriminate].
      destruct (json response) as [data|e]; [|discriminate].
      destruct (openaiModels data); [|discriminate].
      cbn [serverType available].
      destruct (includes baseUrl ":8000") eqn:Hport; intros [= <-].
      * split; [reflexivity|]. now apply includes_Contains.
      * split; [reflexivity|]. now apply includes_false_Contains.
Qed.

Lemma logged_nil (w : World) : logged w [] = w.
Proof. destruct w as [sc cs]. unfold logged. cbn. now rewrite app_nil_r. Qed.

(** One probe with the 2000 ms time-out: it returns, and it either
    found the server after the tags request alone or has issued both
    requests. *)
Lemma probe_step (endpoint : string) (w : World) :
  exists result issued,
    checkLocalServerAvailability endpoint (Some 2000%Z) w
      = (Ok result, logged w issued) /\
    (issued = [(ollamaTagsUrl endpoint, 2000%Z)] /\ isAvailable result = true
     \/ issued = probeRequests 2000 endpoint).
Proof.
  pose proof (checkLocalServerAvailability_cases endpoint (Some 2000%Z) w)
    as Hcases.
  cbv zeta in Hcases. cbn [default from_option id] in Hcases.
  rewrite requested_valid in Hcases by reflexivity.
  destruct (answer ollamaModels _) as [names|].
  - eexists _, _. split; [exact Hcases|]. left. now split.
  - eexists _, _. split; [exact Hcases|]. now right.
Qed.

(** The loop returns, probes in order, stops at the first available
    endpoint, and issues an initial part of the requests that probing
    every endpoint would take. *)
Lemma probeEach_in_order (endpoints : list string) (w : World) :
  exists found issued,
    probeEach endpoints w = (Ok found, logged w issued) /\
    ProbedInOrder endpoints w found (logged w issued) /\
    issued `prefix_of` flat_map (probeRequests 2000) endpoints /\
    (forall result, found = Some result -> isAvailable result = true).
Proof.
  revert w. induction endpoints as [|endpoint rest IH]; intros w.
  - exists None, []. rewrite logged_nil. cbn [probeEach flat_map].
    repeat split; [constructor | | discriminate]. now exists [].
  - destruct (probe_step endpoint w) as (result & issued & Hstep & Hissued).
    cbn [probeEach flat_map]. unfold bind at 1. rewrite Hstep.
    destruct (isAvailable result) eqn:Havailable.
    + exists (Some result), issued. repeat split.
      * now apply probed_hit.
      * destruct Hissued as [[-> _]| ->].
        -- now exists ((modelsUrl endpoint, 2000%Z)
                         :: flat_map (probeRequests 2000) rest).
        -- now apply prefix_app_r.
      * now intros ? [= <-].
    + destruct Hissued as [[_ Hyes]| ->]; [congruence|].
      destruct (IH (logged w (probeRequests 2000 endpoint)))
        as (found & later & Hrest & Horder & Hprefix & Hfound).
      rewrite logged_logged in Hrest, Horder.
      exists found, (probeRequests 2000 endpoint ++ later)%list. repeat split.
      * exact Hrest.
      * now apply (probed_miss _ _ _ _ _ _ _ Hstep Havailable).
      * now apply prefix_app.
      * exact Hfound.
Qed.

(** C6. [autoDetectLocalServer] probes the four loopback endpoints,
    Ollama's two on port 11434 before vLLM's two on port 8000, one
    after the other and each request with a 2000 ms time-out; it
    returns the first available result and issues no request after it;
    when no probe is available it returns [isAvailable] false with an
    error that names the ports 11434 and 8000. *)
Theorem autoDetectLocalServer_sequential (w : World) :
  commonEndpoints
    = [ "http://localhost:11434/v1"; "http://127.0.0.1:11434/v1";
        "http://localhost:8000/v1"; "http://127.0.0.1:8000/v1" ] /\
  exists result found issued,
    autoDetectLocalServer w = (Ok result, logged w issued) /\
    ProbedInOrder commonEndpoints w found (logged w issued) /\
    issued `prefix_of`
      [ ("http://localhost:11434/api/tags", 2000%Z);
        ("http://localhost:11434/v1/models", 2000%Z);
        ("http://127.0.0.1:11434/api/tags", 2000%Z);
        ("http://127.0.0.1:11434/v1/models", 2000%Z);
        ("http://localhost:8000/api/tags", 2000%Z);
        ("http://localhost:8000/v1/models", 2000%Z);
        ("http://127.0.0.1:8000/api/tags", 2000%Z);
        ("http://127.0.0.1:8000/v1/models", 2000%Z) ] /\
    match found with
    | Some first => result = first /\ isAvailable result = true
    | None =>
        isAvailable result = false /\
        exists message,
          error result = Some message /\
          Contains message "11434" /\ Contains message "8000"
    end.
Proof.
  split; [reflexivity|].
  destruct (probeEach_in_order commonEndpoints w)
    as (found & issued & Hloop & Horder & Hprefix & Hfound).
  unfold autoDetectLocalServer, bind. rewrite Hloop.
  destruct found as [first|].
  - exists first, (Some first), issued. repeat split; try assumption.
    now apply Hfound.
  - eexists _, None, issued. repeat split; try assumption.
    eexists. split; [reflexivity|].
    split; apply includes_Contains; reflexivity.
Qed.

End ProbeFacts.

(** ** The theorems at concrete inputs *)

Section Instances.
Import OfflineDetection.

(** The vLLM documentation setup: port 8000 and a model name that does
    not look like an Ollama tag resolve to the vLLM variant. *)
Lemma determineProvider_first_match_wins_witness :
  exists p,
    determineProvider (H := hostNamePredicates)
      (Some (configOf (Some "http://localhost:8000/v1")
                      (Some "Qwen/Qwen3-Coder-14B")))
      sampleCliConfig = Ok p /\
    variant p = Vllm.
Proof.
  destruct (proj2 (determineProvider_first_match_wins
                     (H := hostNamePredicates)
                     (configOf (Some "http://localhost:8000/v1")
                               (Some "Qwen/Qwen3-Coder-14B"))
                     sampleCliConfig))
    as (p & Hp & _ & _ & Hvllm).
  exists p. split; [exact Hp|]. apply Hvllm; [|reflexivity].
  left. exists "http://localhost:8000/v1". split; [reflexivity|].
  exists "http://", "/v1". reflexivity.
Defined.

(** The empty configuration resolves to the Default variant. *)
Lemma determineProvider_total_deterministic_witness :
  determineProvider (H := hostNamePredicates)
    (Some (configOf None None)) sampleCliConfig
  = Ok (newProvider Default (Some (configOf None None)) sampleCliConfig).
Proof.
  apply (proj2 (proj2 (determineProvider_total_deterministic
                         (H := hostNamePredicates)
                         (configOf None None) sampleCliConfig)));
    reflexivity.
Defined.

(** C4 as stated fails: an upper-case host name is accepted by the
    predicate although the base URL does not contain localhost:11434
    or 127.0.0.1:11434, and there is no model. *)
Lemma isOllamaProvider_as_stated_counterexample :
  OllamaProvider.isOllamaProvider
    (configOf (Some "http://LOCALHOST:11434/v1") None) = true /\
  ~ OllamaPredicateAsStated (configOf (Some "http://LOCALHOST:11434/v1") None).
Proof.
  split; [reflexivity|].
  intros [(u & [= <-] & Hc)|[(u & [= <-] & Hc)|(m & [=] & _)]];
    apply includes_Contains in Hc; vm_compute in Hc; discriminate Hc.
Qed.

(** The loopback address on port 11434 resolves to the Ollama variant. *)
Lemma isOllamaProvider_exactly_witness :
  determineProvider (H := hostNamePredicates)
    (Some (configOf (Some "http://127.0.0.1:11434/v1") None)) sampleCliConfig
  = Ok (newProvider Ollama
          (Some (configOf (Some "http://127.0.0.1:11434/v1") None))
          sampleCliConfig).
Proof.
  apply (proj2 (isOllamaProvider_exactly (H := hostNamePredicates)
                  (configOf (Some "http://127.0.0.1:11434/v1") None)
                  sampleCliConfig)).
  right. exists "http://127.0.0.1:11434/v1". split; [reflexivity|].
  exists "http://", "/v1". reflexivity.
Defined.

(** A model tag that starts with a capital Q on a cloud URL is not
    taken for Ollama. *)
Lemma isOllamaProvider_case_sensitivity_witness :
  OllamaProvider.isOllamaProvider
    (configOf (Some "https://api.example.com/v1") (Some "Qwen3-Coder:14b"))
  = false.
Proof.
  apply (proj2 (proj2 (isOllamaProvider_case_sensitivity
                         (H := hostNamePredicates)
                         (configOf (Some "https://api.example.com/v1")
                                   (Some "Qwen3-Coder:14b"))
                         sampleCliConfig))).
  - intros Hc. apply lowered_includes_iff in Hc;
      [vm_compute in Hc | reflexivity | ]; discriminate.
  - intros Hc. apply lowered_includes_iff in Hc;
      [vm_compute in Hc | reflexivity | ]; discriminate.
  - exists "Qwen3-Coder:14b". split; [reflexivity|]. split.
    + exists "Qwen3-Coder", "14b". reflexivity.
    + exists "3-Coder:14b". reflexivity.
Defined.

(** C2 as stated fails: "Qwen3-Coder-7B" is no exact key of the alias
    map and has no colon, so the stated rule yields the default tag,
    but the adapter sends qwen3-coder:7b. *)
Lemma ollama_buildRequest_as_stated_counterexample :
  mapModelNameAsStated "Qwen3-Coder-7B" = "qwen3-coder:14b" /\
  exists out,
    OllamaProvider.buildRequest (sampleRequest "Qwen3-Coder-7B") "prompt-1"
      = Ok out /\
    out !! "model" = Some (VStr "qwen3-coder:7b") /\
    out !! "model" <> Some (VStr (mapModelNameAsStated "Qwen3-Coder-7B")).
Proof.
  split; [reflexivity|].
  eexists. split; [vm_compute; reflexivity|].
  split; [reflexivity|]. vm_compute. discriminate.
Qed.

(** The alias in mixed case is rewritten to its tag. *)
Lemma ollama_buildRequest_model_witness :
  exists out,
    OllamaProvider.buildRequest (sampleRequest "Qwen3-Coder-7B") "prompt-1"
      = Ok out /\
    out !! "model" = Some (VStr "qwen3-coder:7b") /\
    out !! "keep_alive" = Some (VStr "5m").
Proof.
  destruct (ollama_buildRequest_model (sampleRequest "Qwen3-Coder-7B")
              "Qwen3-Coder-7B" "prompt-1")
    as (out & Hbuild & Hmodel & Hkeep & _);
    [reflexivity | vm_compute; discriminate | vm_compute; discriminate |].
  exists out. repeat split; assumption.
Defined.

(** C9 as stated fails: a request that already carries [keep_alive]
    has that property changed, and no property is added. *)
Lemma ollama_buildRequest_frame_as_stated_counterexample :
  exists out,
    OllamaProvider.buildRequest
      (<["keep_alive" := VStr "30m"]> (sampleRequest "qwen3-coder")) "prompt-1"
      = Ok out /\
    out !! "keep_alive"
      <> (<["keep_alive" := VStr "30m"]> (sampleRequest "qwen3-coder"))
           !! "keep_alive" /\
    dom out = dom (<["keep_alive" := VStr "30m"]> (sampleRequest "qwen3-coder")).
Proof.
  eexists. split; [vm_compute; reflexivity|].
  split; [vm_compute; discriminate | reflexivity].
Qed.

(** The sample request keeps its messages and temperature and gains
    [keep_alive]. *)
Lemma ollama_buildRequest_preserves_fields_witness :
  exists out,
    OllamaProvider.buildRequest (sampleRequest "qwen3-coder") "prompt-1"
      = Ok out /\
    out !! "messages" = sampleRequest "qwen3-coder" !! "messages" /\
    out !! "temperature" = sampleRequest "qwen3-coder" !! "temperature" /\
    out !! "keep_alive" = Some (VStr "5m") /\
    ("keep_alive" ∉ dom (sampleRequest "qwen3-coder")) /\
    dom out = dom (sampleRequest "qwen3-coder") ∪ {["keep_alive"]}.
Proof.
  destruct (ollama_buildRequest_preserves_fields
              (sampleRequest "qwen3-coder") "prompt-1") as [Hreturns Hframe].
  destruct Hreturns as [out Hbuild]; [now exists "qwen3-coder"|].
  destruct (Hframe out Hbuild)
    as (Hsame & _ & Hkeep & Hdom & Hnew & _).
  exists out. split; [exact Hbuild|].
  split; [now apply Hsame|]. split; [now apply Hsame|].
  split; [exact Hkeep|]. split; [|exact Hdom].
  now apply Hnew.
Defined.

(** With nothing listening, the probe reports the failure as data. *)
Lemma checkLocalServerAvailability_never_throws_witness :
  exists result w',
    checkLocalServerAvailability "http://localhost:11434/v1" (Some 2000%Z)
      nothingListening = (Ok result, w') /\
    isAvailable result = false /\
    exists message, error result = Some message /\ message <> "".
Proof.
  destruct (checkLocalServerAvailability_never_throws
              "http://localhost:11434/v1" (Some 2000%Z) nothingListening)
    as (result & w' & Hcheck & Hnegative).
  exists result, w'. split; [exact Hcheck|].
  destruct Hnegative as (Hfalse & message & Herror & Hmessage);
    [reflexivity | reflexivity |].
  split; [exact Hfalse|]. exists message. split; [exact Herror|].
  apply Hmessage. intros e He. vm_compute in He. injection He as <-.
  discriminate.
Defined.

(** C8 as stated fails: the tags endpoint responds ok, but with a body
    that is not JSON; the probe goes on to the models endpoint and
    reports a custom server, not ollama. *)
Lemma serverType_as_stated_counterexample :
  respondsOk (tagsOutcome pageThenModels "http://localhost:11434/v1" 5000)
    = true /\
  exists result w',
    checkLocalServerAvailability "http://localhost:11434/v1" None
      pageThenModels = (Ok result, w') /\
    serverType result = Some custom /\
    serverType result <> Some ollama.
Proof.
  split; [reflexivity|].
  eexists _, _. split; [vm_compute; reflexivity|].
  split; [reflexivity | discriminate].
Qed.

(** Only the models endpoint of a server on port 8000 answers: vllm. *)
Lemma checkLocalServerAvailability_serverType_witness :
  exists result w',
    checkLocalServerAvailability "http://localhost:8000/v1" None
      (onlyAnswering "http://localhost:8000/v1/models"
         (Ok (JObj (<["data" := JArr []]> ∅))))
      = (Ok result, w') /\
    isAvailable result = true /\
    serverType result = Some vllm.
Proof.
  destruct (checkLocalServerAvailability_serverType
              "http://localhost:8000/v1" None
              (onlyAnswering "http://localhost:8000/v1/models"
                 (Ok (JObj (<["data" := JArr []]> ∅)))))
    as (result & w' & Hcheck & _ & Hmodels & _).
  exists result, w'. split; [exact Hcheck|].
  apply (Hmodels (ModelNames [])); reflexivity.
Defined.

(** The URLs one probe asks for. *)
Example probe_urls :
  ollamaTagsUrl "http://localhost:11434/v1" = "http://localhost:11434/api/tags" /\
  ollamaTagsUrl "http://localhost:11434/v1/" = "http://localhost:11434/api/tags" /\
  ollamaTagsUrl "http://localhost:11434" = "http://localhost:11434" /\
  modelsUrl "http://localhost:8000/v1" = "http://localhost:8000/v1/models" /\
  modelsUrl "http://localhost:8000" = "http://localhost:8000/v1/models".
Proof. repeat split; reflexivity. Qed.

(** What the alias lookup hands back for the name of an inherited
    property: the member of [Object.prototype], not a model tag. *)
Example mapModelName_inherited_name :
  OllamaProvider.mapModelName (VStr "constructor")
  = Ok (VObjectPrototypeMember "constructor").
Proof. reflexivity. Qed.

(** A request that already carries [keep_alive] has it overwritten. *)
Example ollama_buildRequest_overwrites_keep_alive :
  exists out,
    OllamaProvider.buildRequest
      (<["keep_alive" := VStr "30m"]> (sampleRequest "qwen3-coder")) "prompt-1"
    = Ok out /\
    out !! "keep_alive" = Some (VStr "5m").
Proof. eexists. split; [vm_compute; reflexivity | reflexivity]. Qed.

(** End to end: the default Ollama URL with the generic model name. *)
Example resolve_then_build :
  (exists p,
      determineProvider (H := hostNamePredicates)
        (Some (configOf (Some "http://localhost:11434/v1")
                        (Some "qwen3-coder")))
        sampleCliConfig = Ok p /\ variant p = Ollama) /\
  exists out,
    OllamaProvider.buildRequest (sampleRequest "qwen3-coder") "prompt-1"
      = Ok out /\
    out !! "model" = Some (VStr "qwen3-coder:14b") /\
    out !! "keep_alive" = Some (VStr "5m") /\
    out !! "messages" = sampleRequest "qwen3-coder" !! "messages".
Proof.
  split.
  - eexists. split; reflexivity.
  - eexists. split; [vm_compute; reflexivity|]. repeat split; reflexivity.
Qed.

(** With nothing listening, auto-detection tries all eight requests and
    reports both ports. *)
Example autoDetect_nothing_listening :
  autoDetectLocalServer nothingListening
  = (Ok (unavailable
           "No local model server detected on common ports (11434, 8000)"),
     logged nothingListening
       (flat_map (probeRequests 2000) commonEndpoints)).
Proof. reflexivity. Qed.

End Instances.

(** ** The URLs a probe asks for *)

Section ProbeUrls.
Import OfflineDetection.

Lemma length_append (s t : string) :
  String.length (s ++ t) = (String.length s + String.length t)%nat.
Proof.
  induction s as [|c s IH]; [reflexivity|].
  rewrite append_cons. cbn [String.length]. now rewrite IH.
Qed.

Lemma substring_whole (s : string) :
  String.substring 0 (String.length s) s = s.
Proof. induction s as [|c s IH]; [reflexivity|]. cbn. now rewrite IH. Qed.

Lemma substring_head (s t : string) :
  String.substring 0 (String.length s) (s ++ t) = s.
Proof.
  induction s as [|c s IH]; [now destruct t|].
  rewrite append_cons. cbn. now rewrite IH.
Qed.

Lemma substring_tail (s t : string) (n : nat) :
  String.substring (String.length s) n (s ++ t) = String.substring 0 n t.
Proof.
  induction s as [|c s IH]; [reflexivity|].
  rewrite append_cons. cbn [String.length String.substring]. exact IH.
Qed.

Lemma substring_cut (s : string) (k : nat) :
  (k <= String.length s)%nat ->
  s = String.substring 0 k s ++ String.substring k (String.length s - k) s.
Proof.
  revert k. induction s as [|c s IH]; intros k Hk.
  - cbn in Hk. assert (k = 0)%nat as -> by lia. reflexivity.
  - destruct k as [|k].
    + cbn [String.substring String.length Nat.sub].
      now rewrite substring_whole.
    + cbn [String.length] in Hk.
      cbn [String.substring String.length Nat.sub].
      rewrite append_cons. f_equal. apply IH. lia.
Qed.

(** [endsWith] decides being a suffix. *)
Lemma endsWith_iff (s p : string) :
  endsWith s p = true <-> exists pre, s = pre ++ p.
Proof.
  unfold endsWith. rewrite andb_true_iff, Nat.leb_le, String.eqb_eq. split.
  - intros [Hlen Hsub]. exists (String.substring 0 (String.length s - String.length p) s).
    pose proof (substring_cut s (String.length s - String.length p)) as Hcut.
    replace (String.length s - (String.length s - String.length p))%nat
      with (String.length p) in Hcut by lia.
    rewrite Hsub in Hcut. apply Hcut. lia.
  - intros [pre ->]. rewrite length_append. split; [lia|].
    replace (String.length pre + String.length p - String.length p)%nat
      with (String.length pre) by lia.
    rewrite substring_tail. apply substring_whole.
Qed.

Lemma dropLast_append (pre p : string) :
  dropLast (String.length p) (pre ++ p) = pre.
Proof.
  unfold dropLast. rewrite length_append.
  replace (String.length pre + String.length p - String.length p)%nat
    with (String.length pre) by lia.
  apply substring_head.
Qed.

(** The last character of a string. *)
Lemma append_last_eq (s t : string) (c d : ascii) :
  s ++ String c "" = t ++ String d "" -> c = d.
Proof.
  revert t. induction s as [|a s IH]; intros [|b t] Heq.
  - now injection Heq.
  - rewrite append_cons in Heq. injection Heq as _ Heq.
    destruct t; discriminate.
  - rewrite append_cons in Heq. injection Heq as _ Heq.
    destruct s; discriminate.
  - rewrite !append_cons in Heq. injection Heq as _ Heq. now apply (IH t).
Qed.

Lemma endsWith_other_last (s p q : string) (c d : ascii) :
  c <> d -> endsWith (s ++ p ++ String c "") (q ++ String d "") = false.
Proof.
  intros Hne. apply not_true_is_false. rewrite endsWith_iff.
  intros [pre Heq]. apply Hne.
  rewrite <- !append_assoc in Heq. now apply append_last_eq in Heq.
Qed.

Lemma ollamaTagsUrl_trailing_v1 (base : string) :
  ollamaTagsUrl (base ++ "/v1") = base ++ "/api/tags".
Proof.
  unfold ollamaTagsUrl, replaceTrailingV1.
  assert (endsWith (base ++ "/v1") "/v1/" = false) as ->
    by (apply (endsWith_other_last base "/v" "/v1" "1" "/"); discriminate).
  rewrite (proj2 (endsWith_iff _ _)) by now exists base.
  pose proof (dropLast_append base "/v1") as Hdrop.
  cbn [String.length] in Hdrop. now rewrite Hdrop.
Qed.

(** X1. The tags URL of a probe: a base URL that ends in /v1, with or
    without one more slash, has that ending replaced by /api/tags; any
    other base URL is asked as it stands. *)
Theorem ollamaTagsUrl_trailing (base : string) :
  ollamaTagsUrl (base ++ "/v1") = base ++ "/api/tags" /\
  ollamaTagsUrl (base ++ "/v1/") = base ++ "/api/tags" /\
  ((forall pre, base <> pre ++ "/v1") ->
   (forall pre, base <> pre ++ "/v1/") ->
   ollamaTagsUrl base = base).
Proof.
  unfold ollamaTagsUrl, replaceTrailingV1. split; [|split].
  - assert (endsWith (base ++ "/v1") "/v1/" = false) as ->
      by (apply (endsWith_other_last base "/v" "/v1" "1" "/"); discriminate).
    rewrite (proj2 (endsWith_iff _ _)) by now exists base.
    pose proof (dropLast_append base "/v1") as Hdrop.
    cbn [String.length] in Hdrop. now rewrite Hdrop.
  - rewrite (proj2 (endsWith_iff _ _)) by now exists base.
    pose proof (dropLast_append base "/v1/") as Hdrop.
    cbn [String.length] in Hdrop. now rewrite Hdrop.
  - intros Hno Hno'.
    destruct (endsWith base "/v1/") eqn:H4.
    { apply endsWith_iff in H4 as [pre Hpre]. now destruct (Hno' pre). }
    destruct (endsWith base "/v1") eqn:H3; [|reflexivity].
    apply endsWith_iff in H3 as [pre Hpre]. now destruct (Hno pre).
Qed.

(** X2. The models URL of a probe: a base URL is asked under
    /v1/models whether or not it already ends in /v1; a slash after
    /v1 is not recognised, so /v1 is then appended a second time. *)
Theorem modelsUrl_suffix (base : string) :
  modelsUrl (base ++ "/v1") = base ++ "/v1/models" /\
  ((forall pre, base <> pre ++ "/v1") ->
   modelsUrl base = base ++ "/v1/models" /\
   modelsUrl (base ++ "/v1") = modelsUrl base) /\
  modelsUrl (base ++ "/v1/") = base ++ "/v1//v1/models".
Proof.
  unfold modelsUrl. split; [|split].
  - rewrite (proj2 (endsWith_iff _ _)) by now exists base.
    now rewrite append_assoc.
  - intros Hno.
    rewrite (proj2 (endsWith_iff (base ++ "/v1") _)) by now exists base.
    destruct (endsWith base "/v1") eqn:H3.
    { apply endsWith_iff in H3 as [pre Hpre]. now destruct (Hno pre). }
    split; [reflexivity|]. now rewrite append_assoc.
  - assert (endsWith (base ++ "/v1/") "/v1" = false) as ->
      by (apply (endsWith_other_last base "/v1" "/v" "/" "1"); discriminate).
    now rewrite append_assoc.
Qed.

End ProbeUrls.

(** ** What a probe returns and asks *)

Section ProbeResults.
Import OfflineDetection.

(** X3. The shape of a probe result: an available result carries a
    server type, the base URL that was probed and a model list, and no
    error; an unavailable result carries an error and nothing else. *)
Theorem checkLocalServerAvailability_result_shape
    (url : string) (timeout : option Z) (w : World) :
  exists result w',
    checkLocalServerAvailability url timeout w = (Ok result, w') /\
    if isAvailable result
    then is_Some (serverType result) /\ baseUrl result = Some url /\
         is_Some (models result) /\ error result = None
    else serverType result = None /\ baseUrl result = None /\
         models result = None /\ is_Some (error result).
Proof.
  pose proof (checkLocalServerAvailability_cases url timeout w) as Hcases.
  cbv zeta in Hcases.
  assert (Hshape : forall result : ServerAvailability,
             (exists type ms, result = available type url ms) \/
             (exists message, result = unavailable message) ->
             if isAvailable result
             then is_Some (serverType result) /\ baseUrl result = Some url /\
                  is_Some (models result) /\ error result = None
             else serverType result = None /\ baseUrl result = None /\
                  models result = None /\ is_Some (error result)).
  { intros result [(type & ms & ->)|(message & ->)]; cbn;
      repeat split; eexists; reflexivity. }
  destruct (answer ollamaModels _) as [names|].
  - eexists _, _. split; [exact Hcases|]. apply Hshape. eauto.
  - eexists _, _. split; [exact Hcases|]. apply Hshape. unfold afterModels.
    destruct (modelsOutcome _ _ _) as [response|e]; [|eauto].
    destruct (ok response); [|eauto].
    destruct (json response) as [data|e]; [|eauto].
    destruct (openaiModels data); eauto.
Qed.

(** X4. The requests of one probe. With a time-out that
    [AbortSignal.timeout] accepts (0 to 4294967295 ms; 5000 ms when none
    is passed) the tags URL is asked first and the models URL is asked
    next exactly when the tags request produced no result, so a server
    reported as ollama costs one request and every other outcome costs
    two, each carrying that time-out. With any other time-out no
    request is made at all and the result is unavailable, its error
    being the message of the RangeError. *)
Theorem checkLocalServerAvailability_requests
    (url : string) (timeout : option Z) (w : World) :
  let t := default 5000%Z timeout in
  exists result issued,
    checkLocalServerAvailability url timeout w = (Ok result, logged w issued) /\
    if validTimeout t
    then
      issued = [(ollamaTagsUrl url, t)] /\ serverType result = Some ollama \/
      issued = [(ollamaTagsUrl url, t); (modelsUrl url, t)] /\
      serverType result <> Some ollama
    else
      issued = [] /\ isAvailable result = false /\
      error result = Some (errorText timeoutRangeError).
Proof.
  intros t.
  pose proof (checkLocalServerAvailability_cases url timeout w) as Hcases.
  cbv zeta in Hcases. fold t in Hcases.
  unfold requested, tagsOutcome, modelsOutcome, fetchOutcome in Hcases.
  destruct (validTimeout t).
  - destruct (answer ollamaModels _) as [names|].
    + eexists _, _. split; [exact Hcases|]. left. now split.
    + eexists _, _. split; [exact Hcases|]. right. split; [reflexivity|].
      unfold afterModels.
      destruct (script w _ _ _) as [response|e]; [|discriminate].
      destruct (ok response); [|discriminate].
      destruct (json response) as [data|e]; [|discriminate].
      destruct (openaiModels data); [|discriminate].
      cbn. now destruct (includes url ":8000").
  - cbn [answer afterModels] in Hcases. rewrite <- (logged_nil w) in Hcases at 2.
    eexists _, _. split; [exact Hcases|]. now repeat split.
Qed.

Lemma mapMember_objects (entries : list (gmap string Json)) (key : string) :
  Js.mapMember (JObj <$> entries) key = Ok ((fun o => o !! key) <$> entries).
Proof.
  induction entries as [|o entries IH]; [reflexivity|].
  cbn [fmap list_fmap Js.mapMember Js.getMember].
  change (list_fmap _ _ JObj entries) with (JObj <$> entries).
  now rewrite IH.
Qed.

(** Mapping over an array throws exactly when the array has a [null]
    entry. *)
Lemma mapMember_throws_iff (l : list Json) (key : string) :
  (exists e, Js.mapMember l key = Throw e) <-> JNull ∈ l.
Proof.
  induction l as [|m l IH]; cbn [Js.mapMember].
  - split; [intros [e [=]] | intros Hin; inversion Hin].
  - rewrite elem_of_cons, <- IH.
    destruct m; cbn [Js.getMember];
      [split; [now left | intros _; eexists; reflexivity] | ..];
      (destruct (Js.mapMember l key) as [xs|e'];
       [split;
        [intros [e He]; discriminate He
        |intros [Heq|[e He]]; [discriminate Heq | discriminate He]]
       |split; [intros _; right|intros _]; eexists; reflexivity]).
Qed.

(** X5. Reading the body of the tags endpoint. An object whose
    [models] is an array of objects yields the [name] of each entry, in
    order; an object without [models] (or with [null]) and any payload
    that is a number, string, boolean or array yields the empty list;
    the payload [null], a [models] that is neither array nor [null],
    and an array with a [null] entry make the read throw. *)
Theorem ollamaModels_payload :
  (forall (o : gmap string Json) (entries : list (gmap string Json)),
      o !! "models" = Some (JArr (JObj <$> entries)) ->
      ollamaModels (JObj o)
        = Ok (ModelNames ((fun entry => entry !! "name") <$> entries))) /\
  (forall o : gmap string Json,
      o !! "models" = None \/ o !! "models" = Some JNull ->
      ollamaModels (JObj o) = Ok (ModelNames [])) /\
  (forall data,
      match data with JNull | JObj _ => False | _ => True end ->
      ollamaModels data = Ok (ModelNames [])) /\
  (exists e, ollamaModels JNull = Throw e) /\
  (forall (o : gmap string Json) x,
      o !! "models" = Some x ->
      match x with JNull | JArr _ => False | _ => True end ->
      exists e, ollamaModels (JObj o) = Throw e) /\
  (forall (o : gmap string Json) l,
      o !! "models" = Some (JArr l) ->
      (exists e, ollamaModels (JObj o) = Throw e) <-> JNull ∈ l).
Proof.
  unfold ollamaModels. split; [|split; [|split; [|split; [|split]]]].
  - intros o entries Hmodels. cbn [Js.getMember Js.optionalMap].
    rewrite Hmodels. cbn [Js.optionalMap]. now rewrite mapMember_objects.
  - intros o [Hmodels|Hmodels]; cbn [Js.getMember]; now rewrite Hmodels.
  - intros data Hkind. now destruct data.
  - cbn. eauto.
  - intros o x Hmodels Hkind. cbn [Js.getMember]. rewrite Hmodels.
    destruct x; cbn; solve [eauto | contradiction].
  - intros o l Hmodels. cbn [Js.getMember]. rewrite Hmodels.
    cbn [Js.optionalMap]. rewrite <- (mapMember_throws_iff l "name").
    destruct (Js.mapMember l "name") as [xs|e];
      split; intros [e' He]; try discriminate He; eauto.
Qed.

(** X6. Reading the body of the models endpoint. A [data] array wins
    whatever [models] holds, and yields the [id] of each entry; without
    [data] a truthy [models] value is handed on as it is; without
    either (or with a falsy [models]) the list is empty. *)
Theorem openaiModels_payload (o : gmap string Json) :
  (forall entries : list (gmap string Json),
      o !! "data" = Some (JArr (JObj <$> entries)) ->
      openaiModels (JObj o)
        = Ok (ModelNames ((fun entry => entry !! "id") <$> entries))) /\
  (o !! "data" = None \/ o !! "data" = Some JNull ->
   openaiModels (JObj o) =
   match o !! "models" with
   | Some j => if Js.truthyJson j then Ok (ModelsRaw j) else Ok (ModelNames [])
   | None => Ok (ModelNames [])
   end).
Proof.
  unfold openaiModels. split.
  - intros entries Hdata. cbn [Js.getMember]. rewrite Hdata.
    cbn [Js.optionalMap]. now rewrite mapMember_objects.
  - intros [Hdata|Hdata]; cbn [Js.getMember]; rewrite Hdata;
      cbn [Js.optionalMap]; reflexivity.
Qed.

End ProbeResults.

(** ** Auto-detection *)

Section AutoDetect.
Import OfflineDetection.

(** One probe with the 2000 ms time-out, with the shape of what it
    returns. *)
Lemma probe_step_shape (endpoint : string) (w : World) :
  exists result issued,
    checkLocalServerAvailability endpoint (Some 2000%Z) w
      = (Ok result, logged w issued) /\
    (issued = [(ollamaTagsUrl endpoint, 2000%Z)] /\
     (exists names, result = available ollama endpoint names)
     \/
     issued = probeRequests 2000 endpoint /\
     ((exists ms,
          result = available (if includes endpoint ":8000" then vllm else custom)
                             endpoint ms)
      \/ exists message, result = unavailable message)).
Proof.
  pose proof (checkLocalServerAvailability_cases endpoint (Some 2000%Z) w)
    as Hcases.
  cbv zeta in Hcases. cbn [default from_option id] in Hcases.
  rewrite requested_valid in Hcases by reflexivity.
  destruct (answer ollamaModels _) as [names|].
  - eexists _, _. split; [exact Hcases|]. left. eauto.
  - eexists _, _. split; [exact Hcases|]. right. split; [reflexivity|].
    unfold afterModels.
    destruct (modelsOutcome _ _ _) as [response|e]; [|eauto].
    destruct (ok response); [|eauto].
    destruct (json response) as [data|e]; [|eauto].
    destruct (openaiModels data); eauto.
Qed.

(** The loop: what it has asked when it gives up, and where a result
    it returns comes from. *)
Lemma probeEach_outcome (endpoints : list string) (w : World) :
  exists found issued,
    probeEach endpoints w = (Ok found, logged w issued) /\
    issued `prefix_of` flat_map (probeRequests 2000) endpoints /\
    match found with
    | None => issued = flat_map (probeRequests 2000) endpoints
    | Some result =>
        exists endpoint type ms,
          endpoint ∈ endpoints /\
          result = available type endpoint ms /\
          (type = ollama \/
           type = if includes endpoint ":8000" then vllm else custom)
    end.
Proof.
  revert w. induction endpoints as [|endpoint rest IH]; intros w.
  - exists None, []. rewrite logged_nil. now cbn.
  - destruct (probe_step_shape endpoint w)
      as (result & issued & Hstep & Hshape).
    cbn [probeEach flat_map]. unfold bind at 1. rewrite Hstep.
    destruct Hshape as [[-> (names & ->)]|[-> [(ms & ->)|(message & ->)]]];
      cbn [isAvailable available unavailable].
    + eexists (Some _), _. split; [reflexivity|]. split.
      * now exists ((modelsUrl endpoint, 2000%Z)
                       :: flat_map (probeRequests 2000) rest).
      * exists endpoint, ollama, names.
        split; [apply elem_of_cons; now left|]. split; [reflexivity|now left].
    + eexists (Some _), _. split; [reflexivity|]. split.
      * now apply prefix_app_r.
      * eexists endpoint, _, ms.
        split; [apply elem_of_cons; now left|]. split; [reflexivity|now right].
    + destruct (IH (logged w (probeRequests 2000 endpoint)))
        as (found & later & Hrest & Hprefix & Hfound).
      rewrite logged_logged in Hrest.
      exists found, (probeRequests 2000 endpoint ++ later)%list.
      split; [exact Hrest|]. split; [now apply prefix_app|].
      destruct found as [result|].
      * destruct Hfound as (e & type & ms & Hin & Hresult & Htype).
        exists e, type, ms. split; [apply elem_of_cons; now right|].
        now split.
      * now rewrite Hfound.
Qed.

(** X7. The cost of auto-detection: it never issues more than eight
    requests, every one with the 2000 ms time-out, and it reports
    failure only after all eight have been tried, in the order tags
    then models for each endpoint. *)
Theorem autoDetectLocalServer_requests (w : World) :
  exists result issued,
    autoDetectLocalServer w = (Ok result, logged w issued) /\
    (length issued <= 8)%nat /\
    Forall (fun request => snd request = 2000%Z) issued /\
    (isAvailable result = false ->
     issued = flat_map (probeRequests 2000) commonEndpoints).
Proof.
  destruct (probeEach_outcome commonEndpoints w)
    as (found & issued & Hloop & [rest Hrest] & Hfound).
  assert (Hall : Forall (fun request : string * Z => snd request = 2000%Z)
                   (issued ++ rest)).
  { rewrite <- Hrest. repeat constructor. }
  assert (Hlen : (length (issued ++ rest) = 8)%nat) by now rewrite <- Hrest.
  rewrite length_app in Hlen. apply Forall_app in Hall as [Hall _].
  unfold autoDetectLocalServer, bind. rewrite Hloop.
  destruct found as [result|].
  - exists result, issued. repeat split; [lia | exact Hall |].
    destruct Hfound as (e & type & ms & _ & -> & _). discriminate.
  - eexists _, issued. repeat split; [lia | exact Hall | now intros _].
Qed.

(** X8. Where an auto-detected server comes from: an available result
    names one of the four endpoints as its base URL; the type vllm is
    reported for the two port-8000 endpoints only, the type custom for
    the two port-11434 endpoints only, while ollama can be reported for
    any of the four. *)
Theorem autoDetectLocalServer_found (w : World) :
  exists result w',
    autoDetectLocalServer w = (Ok result, w') /\
    (isAvailable result = true ->
     exists endpoint type,
       endpoint ∈ commonEndpoints /\
       baseUrl result = Some endpoint /\
       serverType result = Some type /\
       match type with
       | ollama => True
       | vllm => endpoint = "http://localhost:8000/v1" \/
                 endpoint = "http://127.0.0.1:8000/v1"
       | custom => endpoint = "http://localhost:11434/v1" \/
                   endpoint = "http://127.0.0.1:11434/v1"
       end).
Proof.
  destruct (probeEach_outcome commonEndpoints w)
    as (found & issued & Hloop & _ & Hfound).
  unfold autoDetectLocalServer, bind. rewrite Hloop.
  destruct found as [result|]; [|eexists _, _; split; [reflexivity|discriminate]].
  exists result, (logged w issued). split; [reflexivity|]. intros _.
  destruct Hfound as (e & type & ms & Hin & -> & Htype).
  exists e, type. split; [exact Hin|]. split; [reflexivity|].
  split; [reflexivity|].
  destruct Htype as [->| ->]; [exact I|].
  unfold commonEndpoints in Hin.
  repeat (apply elem_of_cons in Hin as [->|Hin]; [cbn; tauto|]).
  inversion Hin.
Qed.

End AutoDetect.

(** ** More on the resolver *)

Section ResolverMore.
Context `{CloudPredicates}.

Lemma isVllmProvider_iff (config : ContentGeneratorConfig) :
  VllmProvider.isVllmProvider config = true <->
  BaseUrlContainsIgnoringCase config "localhost:8000" \/
  BaseUrlContainsIgnoringCase config "127.0.0.1:8000".
Proof.
  rewrite isVllmProvider_unfold. cbv zeta. rewrite orb_true_iff.
  now rewrite !lowered_includes_iff by (reflexivity || discriminate).
Qed.

(** X9. The vLLM predicate holds exactly when the base URL contains
    localhost:8000 or 127.0.0.1:8000 in any mix of upper and lower
    case; it looks at the base URL only, so two configurations with the
    same base URL are judged alike whatever their model. *)
Theorem isVllmProvider_exactly (config : ContentGeneratorConfig) :
  (VllmProvider.isVllmProvider config = true <->
   BaseUrlContainsIgnoringCase config "localhost:8000" \/
   BaseUrlContainsIgnoringCase config "127.0.0.1:8000") /\
  (forall config',
      baseUrl config' = baseUrl config ->
      VllmProvider.isVllmProvider config' = VllmProvider.isVllmProvider config).
Proof.
  split; [apply isVllmProvider_iff|].
  intros config' Hurl. unfold VllmProvider.isVllmProvider. now rewrite Hurl.
Qed.

(** The provider returned for a configuration object, with what its
    variant says about the two local predicates. *)
Lemma determineProvider_variant_shape
    (config : ContentGeneratorConfig) (cli : Config) :
  exists p,
    determineProvider (Some config) cli = Ok p /\
    contentGeneratorConfig p = Some config /\
    (variant p = Ollama <-> OllamaPredicate config) /\
    (variant p = Vllm <->
     ~ OllamaPredicate config /\
     (BaseUrlContainsIgnoringCase config "localhost:8000" \/
      BaseUrlContainsIgnoringCase config "127.0.0.1:8000")).
Proof.
  pose proof (isOllamaProvider_iff config) as Hollama.
  pose proof (isVllmProvider_iff config) as Hvllm.
  revert Hollama Hvllm. unfold determineProvider.
  destruct (OllamaProvider.isOllamaProvider config);
    [intros; eexists; split; [reflexivity|]; cbn; intuition congruence|].
  destruct (VllmProvider.isVllmProvider config);
    [intros; eexists; split; [reflexivity|]; cbn; intuition congruence|].
  destruct (isDashScopeProvider config);
    [intros; eexists; split; [reflexivity|]; cbn; intuition congruence|].
  destruct (isDeepSeekProvider config);
    [intros; eexists; split; [reflexivity|]; cbn; intuition congruence|].
  destruct (isOpenRouterProvider config);
    [intros; eexists; split; [reflexivity|]; cbn; intuition congruence|].
  destruct (isModelScopeProvider config);
    intros; eexists; (split; [reflexivity|]); cbn; intuition congruence.
Qed.

(** X10. What each returned variant tells about the configuration: the
    provider keeps the two arguments it was resolved from; Ollama is
    returned only when the Ollama predicate holds, vLLM only when it
    fails and the base URL names port 8000 on the loopback host, a
    cloud variant only when both local predicates fail, and Default
    only when all six predicates fail. *)
Theorem determineProvider_variant_inversion
    (config : ContentGeneratorConfig) (cli : Config) :
  exists p,
    determineProvider (Some config) cli = Ok p /\
    contentGeneratorConfig p = Some config /\
    cliConfig p = cli /\
    (variant p = Ollama <-> OllamaPredicate config) /\
    (variant p = Vllm <->
     ~ OllamaPredicate config /\
     (BaseUrlContainsIgnoringCase config "localhost:8000" \/
      BaseUrlContainsIgnoringCase config "127.0.0.1:8000")) /\
    (variant p <> Ollama -> variant p <> Vllm ->
     OllamaProvider.isOllamaProvider config = false /\
     VllmProvider.isVllmProvider config = false) /\
    (variant p = Default <->
     OllamaProvider.isOllamaProvider config = false /\
     VllmProvider.isVllmProvider config = false /\
     isDashScopeProvider config = false /\
     isDeepSeekProvider config = false /\
     isOpenRouterProvider config = false /\
     isModelScopeProvider config = false).
Proof.
  pose proof (isOllamaProvider_iff config) as Hollama.
  pose proof (isVllmProvider_iff config) as Hvllm.
  revert Hollama Hvllm. unfold determineProvider.
  destruct (OllamaProvider.isOllamaProvider config);
    [intros; eexists; split; [reflexivity|]; cbn; intuition congruence|].
  destruct (VllmProvider.isVllmProvider config);
    [intros; eexists; split; [reflexivity|]; cbn; intuition congruence|].
  destruct (isDashScopeProvider config);
    [intros; eexists; split; [reflexivity|]; cbn; intuition congruence|].
  destruct (isDeepSeekProvider config);
    [intros; eexists; split; [reflexivity|]; cbn; intuition congruence|].
  destruct (isOpenRouterProvider config);
    [intros; eexists; split; [reflexivity|]; cbn; intuition congruence|].
  destruct (isModelScopeProvider config);
    intros; eexists; (split; [reflexivity|]); cbn; intuition congruence.
Qed.

(** X11. Resolution without a configuration argument: the predicates
    are evaluated on the configuration of the CLI object, and the
    variant is the one that configuration resolves to, but the provider
    is constructed with the missing argument, not with the
    configuration that was used; when the CLI object has no
    configuration either, a TypeError is thrown. *)
Theorem determineProvider_undefined_config (cli : Config) :
  match getContentGeneratorConfig cli with
  | None => exists message, determineProvider None cli = Throw (TypeError message)
  | Some config =>
      exists p p',
        determineProvider None cli = Ok p /\
        determineProvider (Some config) cli = Ok p' /\
        variant p = variant p' /\
        contentGeneratorConfig p = None /\
        contentGeneratorConfig p' = Some config
  end.
Proof.
  destruct (getContentGeneratorConfig cli) as [config|] eqn:Hcli.
  - destruct (determineProvider_firstMatch config cli) as (v & _ & Hp').
    exists (newProvider v None cli), (newProvider v (Some config) cli).
    split; [|now split]. revert Hp'. unfold determineProvider. rewrite Hcli.
    repeat match goal with
           | |- context [if ?b then _ else _] => destruct b
           end; now intros [= <-].
  - unfold determineProvider. rewrite Hcli. eauto.
Qed.

End ResolverMore.

(** ** Setting up the client *)

Section ClientFacts.
Context `{CloudPredicates} `{Process} `{Constants}.

Lemma BaseUrlContainsIgnoringCase_nonempty
    (config : ContentGeneratorConfig) (t url : string) :
  toLowerCase t <> "" ->
  BaseUrlContainsIgnoringCase config t ->
  baseUrl config = Some url -> url <> "".
Proof.
  intros Ht (u & Hu & pre & mid & post & Heq & Hmid) Hurl ->.
  rewrite Hurl in Hu. injection Hu as <-.
  destruct pre; [|discriminate]. destruct mid; [|discriminate].
  apply Ht. now rewrite <- Hmid.
Qed.

(** X12. The options a resolved local provider passes to
    [new OpenAI(...)]. A provider resolved to vLLM always has a
    configured, non-empty base URL, and the [baseURL] option is exactly
    that URL: the vLLM default URL is never passed after resolution.
    For a provider resolved to Ollama the [baseURL] option is the
    configured base URL, and the Ollama default only when the
    configuration has none, in which case the provider was picked by
    the model tag. The options [apiKey], [timeout] and [maxRetries] are
    the configured values, with the provider's placeholder key and the
    two default constants where the configuration has none. *)
Theorem buildClient_of_resolved
    (config : ContentGeneratorConfig) (cli : Config) (p : Provider) :
  determineProvider (Some config) cli = Ok p ->
  (variant p = Vllm ->
   exists url options,
     baseUrl config = Some url /\
     url <> "" /\
     Client.vllmBuildClient p = Ok options /\
     Client.baseURL options = url /\
     Client.apiKey options = default "vllm" (apiKey config) /\
     Client.timeout options = default DEFAULT_TIMEOUT (timeout config) /\
     Client.maxRetries options
       = default DEFAULT_MAX_RETRIES (maxRetries config)) /\
  (variant p = Ollama ->
   exists options,
     Client.ollamaBuildClient p = Ok options /\
     Client.baseURL options
       = default OllamaProvider.DEFAULT_OLLAMA_BASE_URL (baseUrl config) /\
     (baseUrl config = None -> ModelIsTagged config "qwen") /\
     Client.apiKey options = default "ollama" (apiKey config) /\
     Client.timeout options = default DEFAULT_TIMEOUT (timeout config) /\
     Client.maxRetries options
       = default DEFAULT_MAX_RETRIES (maxRetries config)).
Proof.
  intros Hp.
  destruct (determineProvider_variant_shape config cli)
    as (q & Hq & Hstored & Hollama & Hvllm).
  rewrite Hq in Hp. injection Hp as <-. split.
  - intros Hv. apply Hvllm in Hv as [_ Hurl].
    assert (exists url, baseUrl config = Some url /\ url <> "")
      as (url & Hsome & Hnonempty).
    { destruct Hurl as [Hc|Hc]; pose proof Hc as (u & Hu & _);
        exists u; (split; [exact Hu|]);
        [apply (BaseUrlContainsIgnoringCase_nonempty config "localhost:8000" u)
        |apply (BaseUrlContainsIgnoringCase_nonempty config "127.0.0.1:8000" u)];
        try assumption; vm_compute; discriminate. }
    exists url. unfold Client.vllmBuildClient, Client.buildClient.
    rewrite Hstored. destruct config as [u key model t r].
    cbn in Hsome. subst u. eexists. split; [reflexivity|].
    split; [exact Hnonempty|]. split; [reflexivity|].
    cbn. repeat split; reflexivity.
  - intros Ho. apply Hollama in Ho.
    unfold Client.ollamaBuildClient, Client.buildClient.
    rewrite Hstored. destruct config as [u key model t r].
    eexists. split; [reflexivity|]. cbn. repeat split; try reflexivity.
    intros ->. destruct Ho as [(u & [=] & _)|[(u & [=] & _)|Htag]].
    exact Htag.
Qed.

(** X13. The client of a local provider that was resolved without a
    configuration argument: the provider holds no configuration (the
    one of the CLI object was used for detection only), so
    [buildClient] throws a TypeError before it constructs a client. *)
Theorem buildClient_after_fallback (cli : Config) (p : Provider) :
  determineProvider None cli = Ok p ->
  (variant p = Ollama ->
   exists message, Client.ollamaBuildClient p = Throw (TypeError message)) /\
  (variant p = Vllm ->
   exists message, Client.vllmBuildClient p = Throw (TypeError message)).
Proof.
  intros Hp.
  assert (Hnone : contentGeneratorConfig p = None).
  { revert Hp. unfold determineProvider.
    destruct (getContentGeneratorConfig cli); [|discriminate].
    repeat match goal with
           | |- context [if ?b then _ else _] => destruct b
           end; now intros [= <-]. }
  unfold Client.ollamaBuildClient, Client.vllmBuildClient, Client.buildClient.
  rewrite Hnone. eauto.
Qed.

End ClientFacts.

(** ** More on the Ollama request adapter *)

Section AdapterMore.

(** Every tag of the alias map has a colon. *)
Lemma modelMap_tag_colon (key tag : string) :
  Js.ownProperty OllamaProvider.modelMap key = Some tag ->
  includes tag ":" = true.
Proof.
  unfold OllamaProvider.modelMap. cbn [Js.ownProperty].
  repeat match goal with
         | |- context [String.eqb ?k key] =>
             destruct (String.eqb k key); [now intros [= <-]|]
         end.
  discriminate.
Qed.

Lemma mapModelNameIgnoringCase_colon (name : string) :
  includes (mapModelNameIgnoringCase name) ":" = true.
Proof.
  unfold mapModelNameIgnoringCase.
  destruct (Js.ownProperty _ _) as [tag|] eqn:Hown.
  - now apply modelMap_tag_colon in Hown.
  - now destruct (includes name ":") eqn:Hcolon.
Qed.

(** X14. The model sent to Ollama is always in tag form, and adapting
    a request twice changes nothing: for every request whose model
    name, lower-cased, is not "constructor" or "__proto__", the model
    of the adapted request contains a colon, and adapting the adapted
    request gives it back unchanged. *)
Theorem ollama_buildRequest_idempotent
    (request : JsObject) (name uid uid' : string) :
  request !! "model" = Some (VStr name) ->
  toLowerCase name <> "constructor" ->
  toLowerCase name <> "__proto__" ->
  exists out tag,
    OllamaProvider.buildRequest request uid = Ok out /\
    out !! "model" = Some (VStr tag) /\
    Contains tag ":" /\
    OllamaProvider.buildRequest out uid' = Ok out.
Proof.
  intros Hmodel Hctor Hproto.
  destruct (ollama_buildRequest_string request name uid Hmodel)
    as (mapped & Hmapped & Hbuild).
  rewrite mapModelName_string in Hmapped by assumption.
  injection Hmapped as <-.
  pose proof (mapModelNameIgnoringCase_colon name) as Hcolon.
  set (tag := mapModelNameIgnoringCase name) in *.
  eexists _, tag. split; [exact Hbuild|].
  assert (Hout : (<["keep_alive" := VStr "5m"]>
                    (<["model" := VStr tag]> request) : JsObject) !! "model"
                 = Some (VStr tag)).
  { rewrite lookup_insert_ne by discriminate. apply lookup_insert_eq. }
  split; [exact Hout|]. split; [now apply includes_Contains|].
  unfold OllamaProvider.buildRequest, Js.get. rewrite Hout.
  cbn [default from_option id OllamaProvider.mapModelName].
  rewrite Hcolon, spread_empty. f_equal.
  rewrite (insert_id _ "model" (VStr tag)) by exact Hout.
  apply insert_id. apply lookup_insert_eq.
Qed.

(** X15. When the adapter throws and when it returns: a request whose
    model is a string is always adapted; a request without a model, or
    whose model is undefined, null, a boolean, a number or an object,
    makes [buildRequest] throw a TypeError. *)
Theorem ollama_buildRequest_throws (request : JsObject) (uid : string) :
  ((exists name, request !! "model" = Some (VStr name)) ->
   exists out, OllamaProvider.buildRequest request uid = Ok out) /\
  (match request !! "model" with
   | None | Some VUndefined | Some (VJson JNull) | Some (VJson (JBool _))
   | Some (VJson (JNum _)) | Some (VJson (JObj _)) => True
   | _ => False
   end ->
   exists message,
     OllamaProvider.buildRequest request uid = Throw (TypeError message)).
Proof.
  split.
  - intros [name Hmodel].
    destruct (ollama_buildRequest_string request name uid Hmodel)
      as (mapped & _ & Hbuild).
    eauto.
  - unfold OllamaProvider.buildRequest, Js.get.
    destruct (request !! "model") as [[|[| | | | |]|]|]; cbn;
      solve [contradiction | eauto].
Qed.

(** X16. Model names that meet an inherited property: when the
    lower-cased model name is "constructor" or "__proto__" (in any mix
    of upper and lower case), the alias lookup finds the member of
    [Object.prototype] of that name, and the adapted request carries
    that object, not a string, as its model. *)
Theorem ollama_buildRequest_inherited_name
    (request : JsObject) (name uid : string) :
  request !! "model" = Some (VStr name) ->
  toLowerCase name = "constructor" \/ toLowerCase name = "__proto__" ->
  exists out,
    OllamaProvider.buildRequest request uid = Ok out /\
    out !! "model" = Some (VObjectPrototypeMember (toLowerCase name)) /\
    forall tag, out !! "model" <> Some (VStr tag).
Proof.
  intros Hmodel Hname.
  destruct (ollama_buildRequest_string request name uid Hmodel)
    as (mapped & Hmapped & Hbuild).
  assert (Hcolon : includes name ":" = false).
  { rewrite <- includes_colon_toLowerCase. now destruct Hname as [-> | ->]. }
  assert (mapped = VObjectPrototypeMember (toLowerCase name)) as ->.
  { cbn [OllamaProvider.mapModelName] in Hmapped. rewrite Hcolon in Hmapped.
    injection Hmapped as <-. now destruct Hname as [-> | ->]. }
  eexists. split; [exact Hbuild|].
  rewrite lookup_insert_ne by discriminate. rewrite lookup_insert_eq.
  split; [reflexivity|]. discriminate.
Qed.

End AdapterMore.

(** ** The providers' availability checks *)

Section StaticChecks.
Import OfflineDetection.

Lemma startsWith_append (p rest : string) : startsWith (p ++ rest) p = true.
Proof. apply startsWith_StartsWith. now exists rest. Qed.

Lemma dropFirst_append (p rest : string) :
  OllamaProviderStatic.dropFirst (String.length p) (p ++ rest) = rest.
Proof. induction p as [|c p IH]; [reflexivity|]. exact IH. Qed.

Lemma replaceFirst_cons (c : ascii) (s pattern replacement : string) :
  OllamaProviderStatic.replaceFirst (String c s) pattern replacement =
  if startsWith (String c s) pattern
  then replacement
         ++ OllamaProviderStatic.dropFirst (String.length pattern) (String c s)
  else String c (OllamaProviderStatic.replaceFirst s pattern replacement).
Proof. reflexivity. Qed.

Lemma replaceFirst_absent (s pattern replacement : string) :
  includes s pattern = false ->
  OllamaProviderStatic.replaceFirst s pattern replacement = s.
Proof.
  induction s as [|c s IH]; cbn [includes]; intros Hno;
    apply orb_false_iff in Hno as [Hhead Hno].
  - cbn [OllamaProviderStatic.replaceFirst]. now rewrite Hhead.
  - rewrite replaceFirst_cons, Hhead. now rewrite IH.
Qed.

(** No occurrence of "/v1" can begin in [pre] and end in a "/v1" that
    follows it. *)
Lemma startsWith_v1_inside (c : ascii) (pre post : string) :
  startsWith (String c pre ++ "/v1" ++ post) "/v1" = true ->
  startsWith (String c pre) "/v1" = true.
Proof.
  intros Hstart. apply startsWith_StartsWith in Hstart as [rest Heq].
  apply startsWith_StartsWith.
  rewrite append_cons in Heq. injection Heq as -> Heq.
  destruct pre as [|d pre]; [discriminate Heq|].
  rewrite append_cons in Heq. injection Heq as -> Heq.
  destruct pre as [|e pre]; [discriminate Heq|].
  rewrite append_cons in Heq. injection Heq as -> _.
  now exists pre.
Qed.

Lemma replaceFirst_v1 (pre post replacement : string) :
  includes pre "/v1" = false ->
  OllamaProviderStatic.replaceFirst (pre ++ "/v1" ++ post) "/v1" replacement
  = pre ++ replacement ++ post.
Proof.
  induction pre as [|c pre IH]; intros Hno.
  - change ("" ++ "/v1" ++ post) with (String "/" ("v1" ++ post)).
    rewrite replaceFirst_cons.
    change (String "/" ("v1" ++ post)) with ("/v1" ++ post).
    now rewrite startsWith_append, dropFirst_append.
  - cbn [includes] in Hno. apply orb_false_iff in Hno as [Hhead Hno].
    rewrite !(append_cons c pre), replaceFirst_cons.
    destruct (startsWith (String c (pre ++ "/v1" ++ post)) "/v1") eqn:Hstart.
    + rewrite <- append_cons in Hstart.
      apply startsWith_v1_inside in Hstart. congruence.
    + now rewrite IH.
Qed.

(** X17. The tags URL of [OllamaProvider.checkAvailability] and
    [listModels]: the first "/v1" of the URL is replaced by
    "/api/tags", wherever it stands; a URL without "/v1" is asked as it
    is; an undefined or empty base URL stands for the Ollama default.
    For a base URL whose only "/v1" is at its end the URL is the one
    [checkLocalServerAvailability] asks first. *)
Theorem ollama_tagsUrl_first_v1 (pre post : string) :
  includes pre "/v1" = false ->
  OllamaProviderStatic.tagsUrl (Some (pre ++ "/v1" ++ post))
    = pre ++ "/api/tags" ++ post /\
  (pre <> "" -> OllamaProviderStatic.tagsUrl (Some pre) = pre) /\
  OllamaProviderStatic.tagsUrl (Some (pre ++ "/v1")) = ollamaTagsUrl (pre ++ "/v1") /\
  OllamaProviderStatic.tagsUrl None = "http://localhost:11434/api/tags" /\
  OllamaProviderStatic.tagsUrl (Some "") = "http://localhost:11434/api/tags".
Proof.
  intros Hno.
  assert (Hsome : forall s, s <> "" ->
            OllamaProviderStatic.tagsUrl (Some s)
            = OllamaProviderStatic.replaceFirst s "/v1" "/api/tags").
  { intros [|c s] Hs; [now destruct Hs | reflexivity]. }
  split; [|split; [|split; [|split; reflexivity]]].
  - rewrite Hsome by (destruct pre; discriminate).
    now apply replaceFirst_v1.
  - intros Hpre. rewrite Hsome by exact Hpre. now apply replaceFirst_absent.
  - rewrite Hsome by (destruct pre; discriminate).
    pose proof (replaceFirst_v1 pre "" "/api/tags" Hno) as Hfirst.
    rewrite !append_nil_r in Hfirst. change ("/v1" ++ "") with "/v1" in Hfirst.
    rewrite Hfirst. symmetry. apply ollamaTagsUrl_trailing_v1.
Qed.

Lemma ollama_checkAvailability_of_outcome (url : option string) (w : World) :
  OllamaProviderStatic.checkAvailability url w =
  (Ok (respondsOk (script w (length (calls w))
                     (OllamaProviderStatic.tagsUrl url) 5000%Z)),
   logged w [(OllamaProviderStatic.tagsUrl url, 5000%Z)]).
Proof.
  unfold OllamaProviderStatic.checkAvailability, tryCatch, bind, ret.
  rewrite fetch_valid by reflexivity. now destruct (script w _ _ _).
Qed.

(** X18. [OllamaProvider.checkAvailability] never throws: it issues one
    request, to the tags URL with a 5000 ms time-out, and returns true
    exactly when that request responded ok; a failed request gives
    false. *)
Theorem ollama_checkAvailability_result (url : option string) (w : World) :
  exists available,
    OllamaProviderStatic.checkAvailability url w
      = (Ok available, logged w [(OllamaProviderStatic.tagsUrl url, 5000%Z)]) /\
    (available = true <->
     exists response,
       script w (length (calls w)) (OllamaProviderStatic.tagsUrl url) 5000%Z
         = Ok response /\
       ok response = true).
Proof.
  eexists. split; [apply ollama_checkAvailability_of_outcome|].
  unfold respondsOk. destruct (script w _ _ _) as [response|e].
  - split; [intros Hok; now exists response | now intros (r & [= <-] & Hok)].
  - split; [discriminate | now intros (r & [=] & _)].
Qed.

(** X19. [VllmProvider.checkAvailability] never throws: it issues one
    request with a 5000 ms time-out and returns true exactly when that
    request responded ok. The URL asked is the base URL (the vLLM
    default when undefined or empty) followed by "/models": for a base
    URL ending in "/v1" this is the models URL of
    [checkLocalServerAvailability], for any other base URL it lacks the
    "/v1" that the probe inserts. *)
Theorem vllm_checkAvailability_result (url : option string) (w : World) :
  VllmProviderStatic.checkAvailability url w =
  (Ok (respondsOk (script w (length (calls w))
                     (VllmProviderStatic.modelsUrl url) 5000%Z)),
   logged w [(VllmProviderStatic.modelsUrl url, 5000%Z)]) /\
  VllmProviderStatic.modelsUrl None = "http://localhost:8000/v1/models" /\
  VllmProviderStatic.modelsUrl (Some "") = "http://localhost:8000/v1/models" /\
  (forall base,
      VllmProviderStatic.modelsUrl (Some (base ++ "/v1"))
      = modelsUrl (base ++ "/v1")) /\
  (forall base,
      base <> "" -> endsWith base "/v1" = false ->
      VllmProviderStatic.modelsUrl (Some base) = base ++ "/models" /\
      modelsUrl base = base ++ "/v1/models").
Proof.
  split; [|split; [reflexivity|split; [reflexivity|split]]].
  - unfold VllmProviderStatic.checkAvailability, tryCatch, bind, ret.
    rewrite fetch_valid by reflexivity. now destruct (script w _ _ _).
  - intros base. unfold VllmProviderStatic.modelsUrl, modelsUrl.
    rewrite (proj2 (endsWith_iff _ _)) by now exists base.
    now destruct base.
  - intros base Hbase Hends. unfold VllmProviderStatic.modelsUrl, modelsUrl.
    rewrite Hends. now destruct base.
Qed.

Lemma modelNames_ollamaModels (data : Json) :
  ollamaModels data =
  match OllamaProviderStatic.modelNames data with
  | Ok names => Ok (ModelNames names)
  | Throw e => Throw e
  end.
Proof.
  unfold ollamaModels, OllamaProviderStatic.modelNames.
  destruct (Js.getMember data "models") as [x|e]; [|reflexivity].
  now destruct (Js.optionalMap x "name") as [[names|]|e].
Qed.

Lemma ollama_listModels_of_outcome (url : option string) (w : World) :
  exists names,
    OllamaProviderStatic.listModels url w
      = (Ok names, logged w [(OllamaProviderStatic.tagsUrl url, 5000%Z)]) /\
    match answer ollamaModels
            (script w (length (calls w))
               (OllamaProviderStatic.tagsUrl url) 5000%Z) with
    | Some found => found = ModelNames names
    | None => names = []
    end.
Proof.
  unfold OllamaProviderStatic.listModels, tryCatch, bind, ret, lift, answer.
  rewrite fetch_valid by reflexivity.
  destruct (script w _ _ _) as [response|e]; [|eauto].
  destruct (ok response); cbn [negb]; [|eauto].
  destruct (json response) as [data|e]; [|eauto].
  rewrite modelNames_ollamaModels.
  destruct (OllamaProviderStatic.modelNames data); eauto.
Qed.

(** X20. [OllamaProvider.listModels] never throws: it issues one
    request, to the tags URL with a 5000 ms time-out, and returns the
    names read from the body when the request responded ok and the
    body could be read, and the empty list in every other case: a
    failed request, a response that is not ok, a body that is not
    JSON, or a model list that cannot be read. *)
Theorem ollama_listModels_result (url : option string) (w : World) :
  exists names,
    OllamaProviderStatic.listModels url w
      = (Ok names, logged w [(OllamaProviderStatic.tagsUrl url, 5000%Z)]) /\
    match script w (length (calls w))
            (OllamaProviderStatic.tagsUrl url) 5000%Z with
    | Throw _ => names = []
    | Ok response =>
        if ok response then
          match json response with
          | Throw _ => names = []
          | Ok data =>
              match ollamaModels data with
              | Ok found => found = ModelNames names
              | Throw _ => names = []
              end
          end
        else names = []
    end.
Proof.
  destruct (ollama_listModels_of_outcome url w) as (names & Hlist & Hnames).
  exists names. split; [exact Hlist|]. revert Hnames. unfold answer.
  destruct (script w _ _ _) as [response|e]; [|tauto].
  destruct (ok response); [|tauto].
  destruct (json response) as [data|e]; [|tauto].
  now destruct (ollamaModels data).
Qed.

(** X21. The two Ollama checks agree in one direction: for a base URL
    whose only "/v1" is at its end, whenever
    [checkLocalServerAvailability] with its default time-out reports
    the server as ollama, [OllamaProvider.checkAvailability] on the
    same network returns true, and [listModels] returns the models of
    that report. *)
Theorem ollama_checks_agree
    (base : string) (w w' : World) (result : ServerAvailability) :
  includes base "/v1" = false ->
  checkLocalServerAvailability (base ++ "/v1") None w = (Ok result, w') ->
  serverType result = Some ollama ->
  OllamaProviderStatic.checkAvailability (Some (base ++ "/v1")) w
    = (Ok true, w') /\
  exists names,
    OllamaProviderStatic.listModels (Some (base ++ "/v1")) w = (Ok names, w') /\
    models result = Some (ModelNames names).
Proof.
  intros Hno Hcheck Htype.
  assert (Hurl : OllamaProviderStatic.tagsUrl (Some (base ++ "/v1"))
                 = ollamaTagsUrl (base ++ "/v1")).
  { assert (OllamaProviderStatic.tagsUrl (Some (base ++ "/v1"))
            = OllamaProviderStatic.replaceFirst (base ++ "/v1") "/v1" "/api/tags")
      as -> by now destruct base.
    pose proof (replaceFirst_v1 base "" "/api/tags" Hno) as Hfirst.
    rewrite !append_nil_r in Hfirst. change ("/v1" ++ "") with "/v1" in Hfirst.
    rewrite Hfirst. symmetry. apply ollamaTagsUrl_trailing_v1. }
  rewrite checkLocalServerAvailability_cases in Hcheck.
  cbv zeta in Hcheck. cbn [default from_option id] in Hcheck.
  rewrite requested_valid in Hcheck by reflexivity.
  unfold tagsOutcome, fetchOutcome in Hcheck.
  change (validTimeout 5000) with true in Hcheck. cbv iota in Hcheck.
  destruct (ollama_listModels_of_outcome (Some (base ++ "/v1")) w)
    as (names & Hlist & Hnames).
  rewrite ollama_checkAvailability_of_outcome, Hlist. rewrite Hurl in *.
  destruct (answer ollamaModels _) as [found|] eqn:Hanswer.
  - injection Hcheck as <- <-. subst found. split.
    + f_equal. f_equal. unfold answer in Hanswer. unfold respondsOk.
      destruct (script w _ _ _) as [response|e]; [|discriminate].
      now destruct (ok response).
    + now exists names.
  - injection Hcheck as <- _. exfalso. revert Htype. unfold afterModels.
    destruct (modelsOutcome _ _ _) as [response|e]; [|discriminate].
    destruct (ok response); [|discriminate].
    destruct (json response) as [data|e]; [|discriminate].
    destruct (openaiModels data); [|discriminate].
    cbn. now destruct (includes _ ":8000").
Qed.

End StaticChecks.

(** ** The further theorems at concrete inputs *)

Section MoreInstances.
Import OfflineDetection.

(** The options of the vLLM documentation setup carry the configured
    URL. *)
Lemma buildClient_of_resolved_witness :
  exists options,
    Client.vllmBuildClient (H := linuxProcess) (H0 := sampleConstants)
      (newProvider Vllm
         (Some (configOf (Some "http://localhost:8000/v1")
                         (Some "Qwen/Qwen3-Coder-14B")))
         sampleCliConfig) = Ok options /\
    Client.baseURL options = "http://localhost:8000/v1" /\
    Client.apiKey options = "vllm".
Proof.
  destruct (proj1 (@buildClient_of_resolved hostNamePredicates linuxProcess
                     sampleConstants
                     (configOf (Some "http://localhost:8000/v1")
                               (Some "Qwen/Qwen3-Coder-14B"))
                     sampleCliConfig _ eq_refl) eq_refl)
    as (url & options & Hurl & _ & Hbuild & Hbase & Hkey & _).
  exists options. split; [exact Hbuild|].
  injection Hurl as <-. now split.
Defined.

(** Resolved through the CLI object's configuration, the Ollama
    provider cannot build its client. *)
Lemma buildClient_after_fallback_witness :
  exists message,
    Client.ollamaBuildClient (H := linuxProcess) (H0 := sampleConstants)
      (newProvider Ollama None
         (cliHolding (configOf (Some "http://localhost:11434/v1") None)))
    = Throw (TypeError message).
Proof.
  exact (proj1 (@buildClient_after_fallback hostNamePredicates linuxProcess
                  sampleConstants
                  (cliHolding (configOf (Some "http://localhost:11434/v1") None))
                  _ eq_refl) eq_refl).
Defined.

(** Adapting the adapted sample request changes nothing. *)
Lemma ollama_buildRequest_idempotent_witness :
  exists out,
    OllamaProvider.buildRequest (sampleRequest "Qwen3-Coder-7B") "prompt-1"
      = Ok out /\
    OllamaProvider.buildRequest out "prompt-2" = Ok out.
Proof.
  destruct (ollama_buildRequest_idempotent (sampleRequest "Qwen3-Coder-7B")
              "Qwen3-Coder-7B" "prompt-1" "prompt-2")
    as (out & tag & Hbuild & _ & _ & Hagain);
    [reflexivity | vm_compute; discriminate | vm_compute; discriminate |].
  exists out. now split.
Defined.

(** The model name Constructor is replaced by an inherited member. *)
Lemma ollama_buildRequest_inherited_name_witness :
  exists out,
    OllamaProvider.buildRequest (sampleRequest "Constructor") "prompt-1"
      = Ok out /\
    out !! "model" = Some (VObjectPrototypeMember "constructor").
Proof.
  destruct (ollama_buildRequest_inherited_name (sampleRequest "Constructor")
              "Constructor" "prompt-1")
    as (out & Hbuild & Hmodel & _); [reflexivity | now left |].
  exists out. now split.
Defined.

(** The tags URL of a remote Ollama server. *)
Lemma ollama_tagsUrl_first_v1_witness :
  OllamaProviderStatic.tagsUrl (Some "http://192.168.1.100:11434/v1")
  = "http://192.168.1.100:11434/api/tags".
Proof.
  exact (proj1 (ollama_tagsUrl_first_v1 "http://192.168.1.100:11434" ""
                  eq_refl)).
Defined.

(** An Ollama server that lists one model: the probe, the provider's
    check and the provider's model list agree. *)
Lemma ollama_checks_agree_witness :
  exists names,
    OllamaProviderStatic.listModels (Some "http://localhost:11434/v1")
      (onlyAnswering "http://localhost:11434/api/tags" (Ok oneModelBody))
    = (Ok names,
       logged (onlyAnswering "http://localhost:11434/api/tags" (Ok oneModelBody))
         [("http://localhost:11434/api/tags", 5000%Z)]) /\
    names = [Some (JStr "qwen3-coder:14b")].
Proof.
  destruct (ollama_checks_agree "http://localhost:11434"
              (onlyAnswering "http://localhost:11434/api/tags" (Ok oneModelBody))
              _ _ eq_refl eq_refl eq_refl)
    as (_ & names & Hlist & Hmodels).
  exists names. split; [exact Hlist|]. now injection Hmodels as <-.
Defined.

(** A base URL without the version segment is asked as it stands. *)
Lemma ollamaTagsUrl_trailing_witness :
  ollamaTagsUrl "http://localhost:11434" = "http://localhost:11434".
Proof.
  apply (proj2 (proj2 (ollamaTagsUrl_trailing "http://localhost:11434")));
    intros pre Heq;
    [assert (Hends : endsWith "http://localhost:11434" "/v1" = true)
       by (apply endsWith_iff; now exists pre)
    |assert (Hends : endsWith "http://localhost:11434" "/v1/" = true)
       by (apply endsWith_iff; now exists pre)];
    vm_compute in Hends; discriminate Hends.
Defined.

(** With and without the version segment the models URL is the same. *)
Lemma modelsUrl_suffix_witness :
  modelsUrl "http://localhost:8000" = "http://localhost:8000/v1/models" /\
  modelsUrl "http://localhost:8000/v1" = modelsUrl "http://localhost:8000".
Proof.
  apply (proj1 (proj2 (modelsUrl_suffix "http://localhost:8000"))).
  intros pre Heq.
  assert (Hends : endsWith "http://localhost:8000" "/v1" = true)
    by (apply endsWith_iff; now exists pre).
  vm_compute in Hends. discriminate Hends.
Defined.

(** With nothing listening, all eight requests are made. *)
Lemma autoDetectLocalServer_requests_witness :
  exists result issued,
    autoDetectLocalServer nothingListening
      = (Ok result, logged nothingListening issued) /\
    issued = flat_map (probeRequests 2000) commonEndpoints.
Proof.
  destruct (autoDetectLocalServer_requests nothingListening)
    as (result & issued & Hrun & _ & _ & Hall).
  exists result, issued. split; [exact Hrun|]. apply Hall.
  assert (Hvalue : fst (autoDetectLocalServer nothingListening)
                   = Ok (unavailable
                           "No local model server detected on common ports (11434, 8000)"))
    by reflexivity.
  rewrite Hrun in Hvalue. cbn [fst] in Hvalue. now injection Hvalue as ->.
Defined.

(** Only the models endpoint of the first vLLM address answers. *)
Lemma autoDetectLocalServer_found_witness :
  exists result w' endpoint type,
    autoDetectLocalServer
      (onlyAnswering "http://localhost:8000/v1/models"
         (Ok (JObj (<["data" := JArr []]> ∅)))) = (Ok result, w') /\
    endpoint ∈ commonEndpoints /\
    baseUrl result = Some endpoint /\
    serverType result = Some type.
Proof.
  destruct (autoDetectLocalServer_found
              (onlyAnswering "http://localhost:8000/v1/models"
                 (Ok (JObj (<["data" := JArr []]> ∅)))))
    as (result & w' & Hrun & Hfound).
  assert (Hvalue : fst (autoDetectLocalServer
                          (onlyAnswering "http://localhost:8000/v1/models"
                             (Ok (JObj (<["data" := JArr []]> ∅)))))
                   = Ok (available vllm "http://localhost:8000/v1"
                           (ModelNames [])))
    by reflexivity.
  rewrite Hrun in Hvalue. cbn [fst] in Hvalue. injection Hvalue as ->.
  destruct (Hfound eq_refl) as (endpoint & type & Hin & Hbase & Htype & _).
  eexists _, w', endpoint, type. split; [exact Hrun|]. now repeat split.
Defined.

(** A request without a model cannot be adapted. *)
Lemma ollama_buildRequest_throws_witness :
  exists message,
    OllamaProvider.buildRequest (∅ : JsObject) "prompt-1"
    = Throw (TypeError message).
Proof.
  apply (proj2 (ollama_buildRequest_throws ∅ "prompt-1")). exact I.
Defined.

(** A negative time-out: no request is made, the result is
    unavailable. *)
Lemma checkLocalServerAvailability_requests_witness :
  exists result,
    checkLocalServerAvailability "http://localhost:11434/v1" (Some (-1)%Z)
      nothingListening = (Ok result, nothingListening) /\
    isAvailable result = false /\
    error result = Some (errorText timeoutRangeError).
Proof.
  destruct (checkLocalServerAvailability_requests
              "http://localhost:11434/v1" (Some (-1)%Z) nothingListening)
    as (result & issued & Hrun & Hcase).
  change (validTimeout (default 5000%Z (Some (-1)%Z))) with false in Hcase.
  destruct Hcase as (-> & Hfalse & Herror).
  rewrite logged_nil in Hrun. now exists result.
Defined.

End MoreInstances.
